(** * Portfolio page (js/main.js): GitHub data pipeline, renderer, filter, upload

    A shallow embedding of [js/main.js].  JavaScript strings are modelled by
    [string] (the bytes of their UTF-8 encoding), arrays by [list], numbers
    that hold counts and sizes by [Z], [null]/[undefined] fields by [option].
    The page (the global [state] object and the DOM nodes the script writes
    to) is an explicit record threaded through every handler. *)

From Stdlib Require Import String Ascii List ZArith Lia Bool DecimalString.
Import ListNotations.
Open Scope string_scope.

(** ** Host primitives used by the script *)

Module Js.

(** The double-quote character, and the line feed of a template literal. *)
Definition dq : string := String (ascii_of_nat 34) EmptyString.
Definition nl : string := String (ascii_of_nat 10) EmptyString.

(** An attribute value between double quotes, as the templates write it. *)
Definition q (value : string) : string := dq ++ value ++ dq.

Fixpoint spaces (n : nat) : string :=
  match n with
  | O => EmptyString
  | S n' => String " " (spaces n')
  end.

(** One source line of a template literal: the line break that ends the
    previous line, the indentation, the text. *)
Definition ln (indent : nat) (text : string) : string :=
  nl ++ spaces indent ++ text.

(** [String.prototype.includes]: some suffix of [hay] starts with [needle]. *)
Fixpoint includes (hay needle : string) : bool :=
  prefix needle hay ||
  match hay with
  | EmptyString => false
  | String _ rest => includes rest needle
  end.

(** [x || fallback] on a string-or-null field: [null] and the empty string
    are the falsy values. *)
Definition truthy (field : option string) : bool :=
  match field with
  | Some s => negb (s =? EmptyString)
  | None => false
  end.

Definition or_else (field : option string) (fallback : string) : string :=
  match field with
  | Some s => if s =? EmptyString then fallback else s
  | None => fallback
  end.

(** Template interpolation of an integer: its decimal numeral (the counts
    of the API are integers far below 2^53, where numbers are exact and
    print without an exponent). *)
Definition toString (n : Z) : string := NilZero.string_of_int (Z.to_int n).

(** [Array.prototype.join('')]. *)
Definition join (parts : list string) : string :=
  fold_right append EmptyString parts.

(** [Array.prototype.map] with the [(element, index)] callback. *)
Fixpoint map_from {A B : Type} (f : A -> nat -> B) (start : nat) (l : list A)
  : list B :=
  match l with
  | [] => []
  | x :: rest => f x start :: map_from f (S start) rest
  end.

Definition mapi {A B : Type} (f : A -> nat -> B) (l : list A) : list B :=
  map_from f 0 l.

(** [Array.prototype.slice(0, n)]. *)
Definition slice0 {A : Type} (n : nat) (l : list A) : list A := firstn n l.

(** [Array.prototype.reduce((acc, x) => step acc x, init)]. *)
Definition reduce {A B : Type} (step : B -> A -> B) (init : B) (l : list A)
  : B := fold_left step l init.

(** The text-node serialisation behind [div.textContent = text;
    return div.innerHTML]: ampersand, no-break space (U+00A0, bytes 194 160),
    less-than and greater-than are replaced by character references; quotes
    are left as they are. *)
Fixpoint escapeHtml (text : string) : string :=
  match text with
  | EmptyString => EmptyString
  | String c rest =>
      if (c =? "&")%char then "&amp;" ++ escapeHtml rest
      else if (c =? "<")%char then "&lt;" ++ escapeHtml rest
      else if (c =? ">")%char then "&gt;" ++ escapeHtml rest
      else
        match rest with
        | String c' rest' =>
            if ((c =? ascii_of_nat 194) && (c' =? ascii_of_nat 160))%char
            then "&nbsp;" ++ escapeHtml rest'
            else String c (escapeHtml rest)
        | EmptyString => String c EmptyString
        end
  end.

End Js.

Import Js.

(** ** Configuration and data model *)

Definition CONFIG_maxProjects : nat := 12.
Definition CONFIG_animationDelay : Z := 100.

(** A repository object of the API response, with the fields the script
    reads.  [description], [language] and [homepage] may be [null]. *)
Record Project : Type := mkProject {
  name : string;
  description : option string;
  language : option string;
  stargazers_count : Z;
  forks_count : Z;
  html_url : string;
  homepage : option string
}.

(** The user object of the API response. *)
Record UserData : Type := mkUserData {
  public_repos : Z;
  followers : Z
}.

(** The global [state] object. *)
Record State : Type := mkState {
  allProjects : list Project;
  currentFilter : string;
  isLoading : bool
}.

(** A [.filter-btn] element: its [data-filter] and whether it carries the
    [active] class (its [aria-pressed] attribute holds the same flag). *)
Record FilterBtn : Type := mkFilterBtn {
  dataset_filter : string;
  active : bool
}.

(** The page: the script's state and the DOM nodes it writes to.
    [projectsContainer] is the [innerHTML] of [#projectsContainer], [None]
    when the element is missing; [animations] lists the calls
    [animateNumber(elementId, targetValue)] made so far, oldest first. *)
Record Page : Type := mkPage {
  state : State;
  projectsContainer : option string;
  filterButtons : list FilterBtn;
  animations : list (string * Z)
}.

Definition initialState : State :=
  {| allProjects := []; currentFilter := "all"; isLoading := false |}.

Definition set_allProjects (v : list Project) (s : State) : State :=
  {| allProjects := v; currentFilter := currentFilter s;
     isLoading := isLoading s |}.

Definition set_currentFilter (v : string) (s : State) : State :=
  {| allProjects := allProjects s; currentFilter := v;
     isLoading := isLoading s |}.

Definition set_isLoading (v : bool) (s : State) : State :=
  {| allProjects := allProjects s; currentFilter := currentFilter s;
     isLoading := v |}.

Definition with_state (f : State -> State) (pg : Page) : Page :=
  {| state := f (state pg); projectsContainer := projectsContainer pg;
     filterButtons := filterButtons pg; animations := animations pg |}.

(** [container.innerHTML = html], guarded by [if (container)]. *)
Definition set_innerHTML (html : string) (pg : Page) : Page :=
  {| state := state pg;
     projectsContainer :=
       match projectsContainer pg with
       | Some _ => Some html
       | None => None
       end;
     filterButtons := filterButtons pg; animations := animations pg |}.

Definition set_filterButtons (v : list FilterBtn) (pg : Page) : Page :=
  {| state := state pg; projectsContainer := projectsContainer pg;
     filterButtons := v; animations := animations pg |}.

(** [animateNumber]: the count-up ends on [targetValue]; only the call is
    recorded, the timer is not modelled. *)
Definition animateNumber (elementId : string) (targetValue : Z) (pg : Page)
  : Page :=
  {| state := state pg; projectsContainer := projectsContainer pg;
     filterButtons := filterButtons pg;
     animations := (animations pg ++ [(elementId, targetValue)])%list |}.

(** What [fetch] and [response.json()] deliver: a rejected promise (transport
    failure, unreadable body) or a response with its [ok] flag and parsed
    body. *)
Inductive Fetched (A : Type) : Type :=
| Rejected (reason : string)
| Response (ok : bool) (json : string + A).
Arguments Rejected {A} reason.
Arguments Response {A} ok json.

(** The outcome of an [async] function: the value it returns or the error it
    throws. *)
Inductive Outcome (A : Type) : Type :=
| Returned (value : A)
| Threw (error : string).
Arguments Returned {A} value.
Arguments Threw {A} error.

Record Stats : Type := mkStats {
  repos : Z;
  stat_followers : Z;
  stars : Z;
  forks : Z
}.

Record File : Type := mkFile {
  file_name : string;
  file_type : string;
  file_size : Z
}.

(** The two elements the change handler writes to: [#uploadStatus] and the
    [#downloadResume] anchor. *)
Record UploadUI : Type := mkUploadUI {
  status_textContent : string;
  status_color : string;
  downloadBtn_href : string;
  downloadBtn_download : string
}.

(** ** The script *)

Section Script.

(** [String.prototype.toLowerCase], the host's Unicode case mapping. *)
Variable toLowerCase : string -> string.

(** *** Statistics *)

(** The object literal [stats] of [updateStats]. *)
Definition computeStats (userData : UserData) (reposData : list Project)
  : Stats :=
  {| repos := public_repos userData;
     stat_followers := followers userData;
     stars := reduce (fun sum repo => sum + stargazers_count repo)%Z 0%Z
                     reposData;
     forks := reduce (fun sum repo => sum + forks_count repo)%Z 0%Z
                     reposData |}.

Definition updateStats (userData : UserData) (reposData : list Project)
  (pg : Page) : Page :=
  let stats := computeStats userData reposData in
  animateNumber "totalForks" (forks stats)
    (animateNumber "totalStars" (stars stats)
       (animateNumber "followerCount" (stat_followers stats)
          (animateNumber "repoCount" (repos stats) pg))).

(** *** Project cards *)

(** The three conditional badges and the conditional second link of the
    card template, each the value of one [${... ? ... : ''}] slot. *)
Definition languageBadge (language : string) : string :=
  if negb (language =? "Unknown")
  then "<span class=" ++ q "tech-badge" ++ ">" ++ escapeHtml language
       ++ "</span>"
  else EmptyString.

Definition starsBadge (stars : Z) : string :=
  if (0 <? stars)%Z
  then "<span class=" ++ q "tech-badge" ++ " aria-label="
       ++ q (toString stars ++ " stars") ++ ">⭐ " ++ toString stars
       ++ "</span>"
  else EmptyString.

Definition forksBadge (forks : Z) : string :=
  if (0 <? forks)%Z
  then "<span class=" ++ q "tech-badge" ++ " aria-label="
       ++ q (toString forks ++ " forks") ++ ">🔀 " ++ toString forks
       ++ "</span>"
  else EmptyString.

Definition homepageLink (project : Project) : string :=
  match homepage project with
  | Some url =>
      if negb (url =? EmptyString)
      then
        ln 24 ("<a href=" ++ q url ++ " ") ++
        ln 27 ("target=" ++ q "_blank" ++ " ") ++
        ln 27 ("rel=" ++ q "noopener noreferrer" ++ " ") ++
        ln 27 ("class=" ++ q "project-link" ++ " ") ++
        ln 27 ("aria-label=" ++ q ("View " ++ name project ++ " live demo")) ++
        ln 27 ("title=" ++ q "Live Demo" ++ ">") ++
        ln 28 "🚀" ++
        ln 24 "</a>" ++
        ln 20 EmptyString
      else EmptyString
  | None => EmptyString
  end.

Definition noDescription : string := "No description available".

Definition createProjectCard (project : Project) (index : nat) : string :=
  let language := or_else (language project) "Unknown" in
  let description := or_else (description project) noDescription in
  let stars := stargazers_count project in
  let forks := forks_count project in
  ln 8 ("<article class=" ++ q "project-card" ++ " ") ++
  ln 17 ("data-language=" ++ q (toLowerCase language) ++ " ") ++
  ln 17 ("style=" ++ q ("animation-delay: "
            ++ toString (Z.of_nat index * CONFIG_animationDelay) ++ "ms")) ++
  ln 17 ("role=" ++ q "listitem" ++ ">") ++
  ln 12 ("<div class=" ++ q "project-header" ++ ">") ++
  ln 16 ("<h3 class=" ++ q "project-title" ++ ">") ++
  ln 20 ("<span aria-hidden=" ++ q "true" ++ ">📦</span>") ++
  ln 20 ("<span>" ++ escapeHtml (name project) ++ "</span>") ++
  ln 16 "</h3>" ++
  ln 16 ("<p class=" ++ q "project-description" ++ ">"
         ++ escapeHtml description ++ "</p>") ++
  ln 12 "</div>" ++
  ln 12 ("<div class=" ++ q "project-footer" ++ ">") ++
  ln 16 ("<div class=" ++ q "project-tech" ++ ">") ++
  ln 20 (languageBadge language) ++
  ln 20 (starsBadge stars) ++
  ln 20 (forksBadge forks) ++
  ln 16 "</div>" ++
  ln 16 ("<div class=" ++ q "project-links" ++ ">") ++
  ln 20 ("<a href=" ++ q (html_url project) ++ " ") ++
  ln 23 ("target=" ++ q "_blank" ++ " ") ++
  ln 23 ("rel=" ++ q "noopener noreferrer" ++ " ") ++
  ln 23 ("class=" ++ q "project-link" ++ " ") ++
  ln 23 ("aria-label=" ++ q ("View " ++ name project ++ " on GitHub")) ++
  ln 23 ("title=" ++ q "View on GitHub" ++ ">") ++
  ln 24 "🔗" ++
  ln 20 "</a>" ++
  ln 20 (homepageLink project) ++
  ln 16 "</div>" ++
  ln 12 "</div>" ++
  ln 8 "</article>" ++
  ln 4 EmptyString.

(** *** Rendering into the container *)

Definition noProjectsHtml : string :=
  "<p class=" ++ q "no-projects"
  ++ ">No projects found matching your criteria.</p>".

(** The array [displayProjects.map(createProjectCard)] of [displayProjects]:
    the cards of the first [CONFIG.maxProjects] entries. *)
Definition renderedCards (projects : list Project) : list string :=
  mapi createProjectCard (slice0 CONFIG_maxProjects projects).

(** [displayProjects].  The style changes of [animateProjects] on the card
    elements are presentation only and are not part of [Page]. *)
Definition displayProjects (projects : list Project) (pg : Page) : Page :=
  match projectsContainer pg with
  | None => pg
  | Some _ =>
      if (length projects =? 0)%nat
      then set_innerHTML noProjectsHtml pg
      else set_innerHTML (join (renderedCards projects)) pg
  end.

Definition showLoading (pg : Page) : Page :=
  set_innerHTML
    (ln 12 ("<div class=" ++ q "loading" ++ " role=" ++ q "status"
            ++ " aria-live=" ++ q "polite" ++ ">") ++
     ln 16 ("<div class=" ++ q "spinner" ++ " aria-hidden=" ++ q "true"
            ++ "></div>") ++
     ln 16 "<p>Loading projects from GitHub...</p>" ++
     ln 12 "</div>" ++
     ln 8 EmptyString)
    pg.

Definition errorHtml (message : string) : string :=
  ln 12 ("<div class=" ++ q "error-message" ++ " role=" ++ q "alert" ++ ">") ++
  ln 16 ("<p style=" ++ q "text-align: center; color: #ff6b6b;" ++ ">"
         ++ escapeHtml message ++ "</p>") ++
  ln 12 "</div>" ++
  ln 8 EmptyString.

Definition showError (message : string) (pg : Page) : Page :=
  set_innerHTML (errorHtml message) pg.

(** *** Filtering *)

(** The callback of [state.allProjects.filter(...)]:
    [project.language && project.language.toLowerCase().includes(
       filter.toLowerCase())]. *)
Definition matchesFilter (filter : string) (project : Project) : bool :=
  match language project with
  | Some l =>
      negb (l =? EmptyString)
      && includes (toLowerCase l) (toLowerCase filter)
  | None => false
  end.

(** The local [filteredProjects] of [filterProjects]. *)
Definition filteredProjects (all : list Project) (filter : string)
  : list Project :=
  if negb (filter =? "all")
  then List.filter (matchesFilter filter) all
  else all.

Definition toggleButton (filter : string) (btn : FilterBtn) : FilterBtn :=
  {| dataset_filter := dataset_filter btn;
     active := dataset_filter btn =? filter |}.

Definition filterProjects (filter : string) (pg : Page) : Page :=
  let pg1 := with_state (set_currentFilter filter) pg in
  let pg2 := set_filterButtons (map (toggleButton filter) (filterButtons pg1))
                               pg1 in
  displayProjects (filteredProjects (allProjects (state pg2)) filter) pg2.

(** *** Fetching *)

Definition fetchGitHubUser (reply : Fetched UserData) : Outcome UserData :=
  match reply with
  | Rejected reason => Threw reason
  | Response ok json =>
      if negb ok then Threw "Failed to fetch user data"
      else match json with
           | inl reason => Threw reason
           | inr data => Returned data
           end
  end.

Definition fetchGitHubRepos (reply : Fetched (list Project))
  : Outcome (list Project) :=
  match reply with
  | Rejected reason => Threw reason
  | Response ok json =>
      if negb ok then Threw "Failed to fetch repositories"
      else match json with
           | inl reason => Threw reason
           | inr data => Returned data
           end
  end.

(** [Promise.all] of two promises: both values, or a rejection as soon as one
    of them rejects (listed first when both do). *)
Definition Promise_all {A B : Type} (a : Outcome A) (b : Outcome B)
  : Outcome (A * B) :=
  match a, b with
  | Returned x, Returned y => Returned (x, y)
  | Threw e, _ => Threw e
  | _, Threw e => Threw e
  end.

Definition fetchErrorMessage : string :=
  "Failed to load GitHub data. Please try again later.".

(** [fetchGitHubData] up to its [await]: the busy guard, the flag, the
    loading placeholder.  [None] when the guard returns at once. *)
Definition fetchGitHubData_start (pg : Page) : option Page :=
  if isLoading (state pg) then None
  else Some (showLoading (with_state (set_isLoading true) pg)).

(** [fetchGitHubData] from its [await] on, run when both requests have
    settled: the [try] body, the [catch] and the [finally]. *)
Definition fetchGitHubData_resume (user : Fetched UserData)
  (repos : Fetched (list Project)) (pg : Page) : Page :=
  let pg' :=
    match Promise_all (fetchGitHubUser user) (fetchGitHubRepos repos) with
    | Returned (userData, reposData) =>
        displayProjects reposData
          (with_state (set_allProjects reposData)
             (updateStats userData reposData pg))
    | Threw _ => showError fetchErrorMessage pg
    end in
  with_state (set_isLoading false) pg'.

(** A whole call of [fetchGitHubData] with nothing else running between its
    two halves. *)
Definition fetchGitHubData (user : Fetched UserData)
  (repos : Fetched (list Project)) (pg : Page) : Page :=
  match fetchGitHubData_start pg with
  | None => pg
  | Some pg1 => fetchGitHubData_resume user repos pg1
  end.

(** The events of the page that touch [state]; a fetch that has started
    settles later, and filter clicks may come in between. *)
Inductive Event : Type :=
| FetchStarts
| FetchSettles (user : Fetched UserData) (repos : Fetched (list Project))
| FilterClicked (filter : string).

Definition step (pg : Page) (ev : Event) : Page :=
  match ev with
  | FetchStarts =>
      match fetchGitHubData_start pg with
      | Some pg' => pg'
      | None => pg
      end
  | FetchSettles user repos => fetchGitHubData_resume user repos pg
  | FilterClicked filter => filterProjects filter pg
  end.

Definition run (events : list Event) (pg : Page) : Page :=
  fold_left step events pg.

(** Either request failed: a rejection, a non-success status or an
    unreadable body. *)
Definition failed {A : Type} (reply : Fetched A) : bool :=
  match reply with
  | Rejected _ => true
  | Response ok json =>
      negb ok || match json with inl _ => true | inr _ => false end
  end.

(** *** Resume upload *)

(** [URL.createObjectURL]. *)
Variable createObjectURL : File -> string.

Definition maxResumeSize : Z := 5 * 1024 * 1024.

(** The [change] listener installed by [handleResumeUpload];
    [selected] is [e.target.files[0]]. *)
Definition handleResumeUpload (selected : option File) (ui : UploadUI)
  : UploadUI :=
  match selected with
  | None => ui
  | Some file =>
      if negb (file_type file =? "application/pdf") then
        {| status_textContent := "❌ Please upload a PDF file";
           status_color := "#ff6b6b";
           downloadBtn_href := downloadBtn_href ui;
           downloadBtn_download := downloadBtn_download ui |}
      else if (maxResumeSize <? file_size file)%Z then
        {| status_textContent := "❌ File size must be less than 5MB";
           status_color := "#ff6b6b";
           downloadBtn_href := downloadBtn_href ui;
           downloadBtn_download := downloadBtn_download ui |}
      else
        {| status_textContent := "✓ Uploaded: " ++ file_name file;
           status_color := "#43e97b";
           downloadBtn_href := createObjectURL file;
           downloadBtn_download := file_name file |}
  end.

End Script.

(** ** The download link and its clean-up timers *)

(** The change listener of [handleResumeUpload] together with the timer it
    sets: every accepted file gets a new object URL and a clean-up timer for
    it.  [objectURLs] counts the URLs handed out so far, [pendingCleanups]
    holds the URLs whose timer has not fired yet, [revokedURLs] those passed
    to [URL.revokeObjectURL]. *)
Record UploadSession : Type := mkUploadSession {
  session_ui : UploadUI;
  objectURLs : nat;
  pendingCleanups : list string;
  revokedURLs : list string
}.

Section UploadSessions.

(** The URL that the [n]-th call of [URL.createObjectURL] returns. *)
Variable objectURL : nat -> string.

(** The [href] getter of the anchor: the address that the stored attribute
    gives once parsed against the address of the page and serialised. *)
Variable hrefOf : string -> string.

Definition resumeSelected (selected : option File) (s : UploadSession)
  : UploadSession :=
  match selected with
  | None => s
  | Some file =>
      let url := objectURL (objectURLs s) in
      let ui' := handleResumeUpload (fun _ => url) selected (session_ui s) in
      if negb (file_type file =? "application/pdf") then
        {| session_ui := ui'; objectURLs := objectURLs s;
           pendingCleanups := pendingCleanups s;
           revokedURLs := revokedURLs s |}
      else if (maxResumeSize <? file_size file)%Z then
        {| session_ui := ui'; objectURLs := objectURLs s;
           pendingCleanups := pendingCleanups s;
           revokedURLs := revokedURLs s |}
      else
        {| session_ui := ui'; objectURLs := S (objectURLs s);
           pendingCleanups := (pendingCleanups s ++ [url])%list;
           revokedURLs := revokedURLs s |}
  end.

(** The callback of [setTimeout] for the [i]-th pending timer:
    [if (downloadBtn.href !== url) URL.revokeObjectURL(url)]. *)
Definition cleanupFires (i : nat) (s : UploadSession) : UploadSession :=
  match nth_error (pendingCleanups s) i with
  | None => s
  | Some url =>
      {| session_ui := session_ui s; objectURLs := objectURLs s;
         pendingCleanups :=
           (firstn i (pendingCleanups s) ++ skipn (S i) (pendingCleanups s))
           %list;
         revokedURLs :=
           if negb (hrefOf (downloadBtn_href (session_ui s)) =? url)
           then url :: revokedURLs s
           else revokedURLs s |}
  end.

Inductive UploadEvent : Type :=
| FileChosen (selected : option File)
| CleanupTimer (i : nat).

Definition uploadStep (s : UploadSession) (ev : UploadEvent)
  : UploadSession :=
  match ev with
  | FileChosen selected => resumeSelected selected s
  | CleanupTimer i => cleanupFires i s
  end.

Definition uploadRun (events : list UploadEvent) (s : UploadSession)
  : UploadSession :=
  fold_left uploadStep events s.

End UploadSessions.

(** ** The mobile menu *)







(** ** An instance of the host's case mapping on ASCII text *)

Definition lowerAscii (c : ascii) : ascii :=
  let n := nat_of_ascii c in
  if ((65 <=? n) && (n <=? 90))%nat then ascii_of_nat (n + 32) else c.

Fixpoint asciiLower (s : string) : string :=
  match s with
  | EmptyString => EmptyString
  | String c rest => String (lowerAscii c) (asciiLower rest)
  end.

(** ** Notions of the specification *)

(** [needle] occurs in [hay]: the meaning of "contains as a substring". *)
Definition Contains (hay needle : string) : Prop :=
  exists before after, hay = before ++ needle ++ after.

(** The filter as the specification words it: keep the repositories whose
    language is present and, lowercased, contains the lowercased tag. *)
Definition specMatches (toLowerCase : string -> string) (tag : string)
  (project : Project) : bool :=
  match language project with
  | Some l => includes (toLowerCase l) (toLowerCase tag)
  | None => false
  end.

Definition languagePresent (project : Project) : bool :=
  match language project with
  | Some _ => true
  | None => false
  end.

(** The sum of a count over a whole list. *)
Definition total (count : Project -> Z) (L : list Project) : Z :=
  fold_right Z.add 0%Z (map count L).

(** The parsed body of a reply that succeeded. *)
Definition body {A : Type} (reply : Fetched A) : option A :=
  match reply with
  | Response true (inr data) => Some data
  | _ => None
  end.

(** A PDF of at most 5 MiB. *)
Definition acceptable (file : File) : bool :=
  (file_type file =? "application/pdf")
  && (file_size file <=? 5 * 1024 * 1024)%Z.

(** The no-break space U+00A0, as its two bytes. *)
Definition noBreakSpace : string :=
  String (ascii_of_nat 194) (String (ascii_of_nat 160) EmptyString).

(** The parts of a card that depend on the record, as the specification
    lists them: the language of the language badge, the count of the star
    badge and of the fork badge, the address of the homepage link (each
    [None] when the part is left out) and the description shown. *)
Record CardParts : Type := mkCardParts {
  part_language : option string;
  part_stars : option Z;
  part_forks : option Z;
  part_homepage : option string;
  part_description : string
}.

Definition cardParts (project : Project) : CardParts :=
  {| part_language :=
       match language project with
       | Some l =>
           if (l =? EmptyString) || (l =? "Unknown") then None else Some l
       | None => None
       end;
     part_stars :=
       if (0 <? stargazers_count project)%Z
       then Some (stargazers_count project) else None;
     part_forks :=
       if (0 <? forks_count project)%Z
       then Some (forks_count project) else None;
     part_homepage :=
       match homepage project with
       | Some url => if url =? EmptyString then None else Some url
       | None => None
       end;
     part_description :=
       match description project with
       | Some d => if d =? EmptyString then noDescription else d
       | None => noDescription
       end |}.

(** A badge with a count: its label and its text. *)
Definition countBadge (count : Z) (unit icon : string) : string :=
  "<span class=" ++ q "tech-badge" ++ " aria-label="
  ++ q (toString count ++ unit) ++ ">" ++ icon ++ toString count ++ "</span>".

(** The card of the specification: the fixed markup, with each part in its
    place when [cardParts] has it and nothing in that place otherwise. *)
Definition specCard (toLowerCase : string -> string) (project : Project)
  (index : nat) : string :=
  let parts := cardParts project in
  ln 8 ("<article class=" ++ q "project-card" ++ " ") ++
  ln 17 ("data-language="
         ++ q (toLowerCase match part_language parts with
                           | Some l => l
                           | None => "Unknown"
                           end) ++ " ") ++
  ln 17 ("style=" ++ q ("animation-delay: "
            ++ toString (Z.of_nat index * CONFIG_animationDelay) ++ "ms")) ++
  ln 17 ("role=" ++ q "listitem" ++ ">") ++
  ln 12 ("<div class=" ++ q "project-header" ++ ">") ++
  ln 16 ("<h3 class=" ++ q "project-title" ++ ">") ++
  ln 20 ("<span aria-hidden=" ++ q "true" ++ ">📦</span>") ++
  ln 20 ("<span>" ++ escapeHtml (name project) ++ "</span>") ++
  ln 16 "</h3>" ++
  ln 16 ("<p class=" ++ q "project-description" ++ ">"
         ++ escapeHtml (part_description parts) ++ "</p>") ++
  ln 12 "</div>" ++
  ln 12 ("<div class=" ++ q "project-footer" ++ ">") ++
  ln 16 ("<div class=" ++ q "project-tech" ++ ">") ++
  ln 20 match part_language parts with
        | Some l =>
            "<span class=" ++ q "tech-badge" ++ ">" ++ escapeHtml l
            ++ "</span>"
        | None => EmptyString
        end ++
  ln 20 match part_stars parts with
        | Some n => countBadge n " stars" "⭐ "
        | None => EmptyString
        end ++
  ln 20 match part_forks parts with
        | Some n => countBadge n " forks" "🔀 "
        | None => EmptyString
        end ++
  ln 16 "</div>" ++
  ln 16 ("<div class=" ++ q "project-links" ++ ">") ++
  ln 20 ("<a href=" ++ q (html_url project) ++ " ") ++
  ln 23 ("target=" ++ q "_blank" ++ " ") ++
  ln 23 ("rel=" ++ q "noopener noreferrer" ++ " ") ++
  ln 23 ("class=" ++ q "project-link" ++ " ") ++
  ln 23 ("aria-label=" ++ q ("View " ++ name project ++ " on GitHub")) ++
  ln 23 ("title=" ++ q "View on GitHub" ++ ">") ++
  ln 24 "🔗" ++
  ln 20 "</a>" ++
  ln 20 match part_homepage parts with
        | Some url =>
            ln 24 ("<a href=" ++ q url ++ " ") ++
            ln 27 ("target=" ++ q "_blank" ++ " ") ++
            ln 27 ("rel=" ++ q "noopener noreferrer" ++ " ") ++
            ln 27 ("class=" ++ q "project-link" ++ " ") ++
            ln 27 ("aria-label="
                   ++ q ("View " ++ name project ++ " live demo")) ++
            ln 27 ("title=" ++ q "Live Demo" ++ ">") ++
            ln 28 "🚀" ++
            ln 24 "</a>" ++
            ln 20 EmptyString
        | None => EmptyString
        end ++
  ln 16 "</div>" ++
  ln 12 "</div>" ++
  ln 8 "</article>" ++
  ln 4 EmptyString.

(** What the container has to hold to show the stored list under the active
    filter. *)
Definition viewOf (toLowerCase : string -> string) (st : State) : string :=
  match filteredProjects toLowerCase (allProjects st) (currentFilter st) with
  | [] => noProjectsHtml
  | _ :: _ =>
      join (renderedCards toLowerCase
              (filteredProjects toLowerCase (allProjects st)
                 (currentFilter st)))
  end.

Definition showsView (toLowerCase : string -> string) (pg : Page) : Prop :=
  projectsContainer pg =
  match projectsContainer pg with
  | Some _ => Some (viewOf toLowerCase (state pg))
  | None => None
  end.

(** The highlighted buttons are those of the active filter. *)
Definition highlightMatches (pg : Page) : bool :=
  forallb (fun btn =>
             Bool.eqb (active btn)
                      (dataset_filter btn =? currentFilter (state pg)))
          (filterButtons pg).

(** The files of a series of selections that pass the validation. *)
Definition acceptedFiles (selections : list (option File)) : list File :=
  List.filter acceptable
    (flat_map (fun selected =>
                 match selected with Some f => [f] | None => [] end)
              selections).


(** Every URL with a pending timer or revoked was handed out earlier, and
    the address that the download link reads back is not a revoked URL. *)
Definition sessionSound (objectURL : nat -> string)
  (hrefOf : string -> string) (s : UploadSession) : Prop :=
  (forall url,
     In url (pendingCleanups s) \/ In url (revokedURLs s) ->
     exists k, (k < objectURLs s)%nat /\ url = objectURL k) /\
  ~ In (hrefOf (downloadBtn_href (session_ui s))) (revokedURLs s).

(** All counts of a list are non-negative. *)
Definition countsNonNegative (L : list Project) : Prop :=
  Forall (fun project =>
            (0 <= stargazers_count project)%Z /\
            (0 <= forks_count project)%Z) L.

(** ** Sample data *)

Definition repoNamed (n : string) (lang : option string) : Project :=
  {| name := n; description := Some "A project"; language := lang;
     stargazers_count := 2; forks_count := 0;
     html_url := "https://github.com/ravingodbole/" ++ n;
     homepage := None |}.

Definition tsRepo : Project := repoNamed "site" (Some "TypeScript").
Definition pyRepo : Project := repoNamed "tools" (Some "Python").
Definition noLangRepo : Project := repoNamed "notes" None.
Definition emptyLangRepo : Project := repoNamed "blank" (Some EmptyString).
Definition unknownLangRepo : Project := repoNamed "misc" (Some "Unknown").

(** A repository as the API lists one without a homepage: the field is the
    empty string. *)
Definition plainRepo : Project :=
  {| name := "dotfiles"; description := Some EmptyString;
     language := Some "Shell"; stargazers_count := 0; forks_count := 0;
     html_url := "https://github.com/ravingodbole/dotfiles";
     homepage := Some EmptyString |}.

Definition xssProject : Project :=
  {| name := "<img src=x onerror=alert(1)>"; description := None;
     language := Some "<b>"; stargazers_count := 0; forks_count := 0;
     html_url := "https://github.com/ravingodbole/x"; homepage := None |}.

(** A name that closes the attribute it is put in. *)
Definition quoteProject : Project :=
  {| name := dq ++ "><img src=x onerror=alert(1)>"; description := None;
     language := None; stargazers_count := 0; forks_count := 0;
     html_url := "https://github.com/ravingodbole/y"; homepage := None |}.

Definition someUser : UserData := {| public_repos := 3; followers := 7 |}.

Definition page0 : Page :=
  {| state := initialState;
     projectsContainer := Some EmptyString;
     filterButtons :=
       [ {| dataset_filter := "all"; active := true |};
         {| dataset_filter := "python"; active := false |} ];
     animations := [] |}.

Definition pdfOfSize (size : Z) : File :=
  {| file_name := "resume.pdf"; file_type := "application/pdf";
     file_size := size |}.

Definition blobUrl (file : File) : string := "blob:" ++ file_name file.


Definition ui0 : UploadUI :=
  {| status_textContent := EmptyString; status_color := EmptyString;
     downloadBtn_href := "assets/resume.pdf";
     downloadBtn_download := "resume.pdf" |}.

(** A repository with the given counts and nothing else of interest. *)
Definition counted (starCount forkCount : Z) : Project :=
  {| name := "repo"; description := None; language := None;
     stargazers_count := starCount; forks_count := forkCount;
     html_url := "https://github.com/ravingodbole/repo"; homepage := None |}.

(** Object URLs of the page, told apart by the length of their last part,
    and an [href] getter that resolves against the address of the page. *)
Fixpoint letters (n : nat) : string :=
  match n with
  | O => EmptyString
  | S n' => String "a" (letters n')
  end.

Definition sampleObjectURL (n : nat) : string :=
  "blob:https://ravingodbole.github.io/" ++ letters (S n).

Definition sampleHrefOf (attribute : string) : string :=
  if prefix "blob:" attribute || prefix "https:" attribute
  then attribute
  else "https://ravingodbole.github.io/" ++ attribute.

Definition session0 : UploadSession :=
  {| session_ui := ui0; objectURLs := 0; pendingCleanups := [];
     revokedURLs := [] |}.


(** ** Substrings *)

Lemma prefix_append (needle after : string) :
  prefix needle (needle ++ after) = true.
Proof.
  induction needle as [|c needle IH]; simpl.
  - destruct after; reflexivity.
  - destruct (ascii_dec c c) as [_|ne]; [exact IH | now destruct ne].
Qed.

Lemma prefix_split (needle hay : string) :
  prefix needle hay = true -> exists after, hay = needle ++ after.
Proof.
  revert hay; induction needle as [|c needle IH]; intros hay H.
  - exists hay; reflexivity.
  - destruct hay as [|d hay]; simpl in H; [discriminate|].
    destruct (ascii_dec c d) as [->|]; [|discriminate].
    destruct (IH hay H) as [after ->].
    exists after; reflexivity.
Qed.

Lemma includes_unfold (hay needle : string) :
  includes hay needle =
  prefix needle hay ||
  match hay with
  | EmptyString => false
  | String _ rest => includes rest needle
  end.
Proof. destruct hay; reflexivity. Qed.

Lemma includes_Contains (hay needle : string) :
  includes hay needle = true <-> Contains hay needle.
Proof.
  split.
  - induction hay as [|c hay IH]; rewrite includes_unfold; intros H;
      apply orb_true_iff in H as [H|H].
    + destruct (prefix_split _ _ H) as [after E].
      exists EmptyString, after; exact E.
    + discriminate.
    + destruct (prefix_split _ _ H) as [after E].
      exists EmptyString, after; exact E.
    + destruct (IH H) as (before & after & ->).
      exists (String c before), after; reflexivity.
  - intros (before & after & ->).
    induction before as [|c before IH].
    + change (EmptyString ++ needle ++ after) with (needle ++ after).
      rewrite includes_unfold, prefix_append; reflexivity.
    + change (String c before ++ needle ++ after)
        with (String c (before ++ needle ++ after)).
      rewrite includes_unfold; cbv iota.
      rewrite IH; apply orb_true_r.
Qed.

Lemma append_empty_r (s : string) : s ++ EmptyString = s.
Proof. induction s as [|c s IH]; simpl; [reflexivity | now rewrite IH]. Qed.

Lemma append_assoc (a b c : string) : (a ++ b) ++ c = a ++ b ++ c.
Proof. induction a as [|x a IH]; simpl; [reflexivity | now rewrite IH]. Qed.

Lemma Contains_refl (s : string) : Contains s s.
Proof. exists EmptyString, EmptyString. now rewrite append_empty_r. Qed.

Lemma Contains_left (a b needle : string) :
  Contains a needle -> Contains (a ++ b) needle.
Proof.
  intros (before & after & ->). exists before, (after ++ b).
  now rewrite !append_assoc.
Qed.

Lemma Contains_skip (a b needle : string) :
  Contains b needle -> Contains (a ++ b) needle.
Proof.
  intros (before & after & ->). exists (a ++ before), after.
  now rewrite append_assoc.
Qed.

Lemma includes_empty (hay : string) : includes hay EmptyString = true.
Proof. destruct hay; reflexivity. Qed.

Lemma eqb_neq_empty (s : string) :
  negb (s =? EmptyString) = true <-> s <> EmptyString.
Proof.
  rewrite negb_true_iff. apply String.eqb_neq.
Qed.

(** ** Filter engine *)

Section FilterProperties.

Variable toLowerCase : string -> string.

(** What the callback of [filterProjects] accepts. *)
Lemma matchesFilter_iff (filter : string) (project : Project) :
  matchesFilter toLowerCase filter project = true <->
  exists l, language project = Some l /\ l <> EmptyString /\
            Contains (toLowerCase l) (toLowerCase filter).
Proof.
  unfold matchesFilter.
  destruct (language project) as [l|].
  - rewrite andb_true_iff, eqb_neq_empty, includes_Contains.
    split.
    + intros [Hne Hc]. exists l. auto.
    + intros (l' & E & Hne & Hc). injection E as <-. auto.
  - split; [discriminate | intros (l & E & _); discriminate].
Qed.

Lemma matchesFilter_empty_tag (project : Project) :
  toLowerCase EmptyString = EmptyString ->
  matchesFilter toLowerCase EmptyString project = truthy (language project).
Proof.
  intros E. unfold matchesFilter, truthy.
  destruct (language project) as [l|]; [|reflexivity].
  rewrite E, includes_empty. apply andb_true_r.
Qed.

(** C7: with the tag "all" the filter returns the stored list itself, every
    element in its place, and [filterProjects] hands that list to the
    renderer. *)
Theorem filter_all_identity (L : list Project) :
  filteredProjects toLowerCase L "all" = L /\
  forall pg,
    filterProjects toLowerCase "all" (with_state (set_allProjects L) pg) =
    displayProjects toLowerCase L
      (set_filterButtons (map (toggleButton "all") (filterButtons pg))
         (with_state (set_currentFilter "all")
            (with_state (set_allProjects L) pg))).
Proof.
  split; reflexivity.
Qed.

(** C3 (amended): for a tag other than "all" the filter keeps, in input
    order, exactly the repositories whose language is present, not the empty
    string, and whose lowercased language contains the lowercased tag; a
    repository whose language is absent or empty is never kept. *)
Theorem filter_by_tag (L : list Project) (tag : string) :
  tag <> "all" ->
  filteredProjects toLowerCase L tag =
    List.filter (matchesFilter toLowerCase tag) L /\
  (forall project,
     matchesFilter toLowerCase tag project = true <->
     exists l, language project = Some l /\ l <> EmptyString /\
               Contains (toLowerCase l) (toLowerCase tag)) /\
  (forall project,
     In project (filteredProjects toLowerCase L tag) <->
     In project L /\
     exists l, language project = Some l /\ l <> EmptyString /\
               Contains (toLowerCase l) (toLowerCase tag)) /\
  (forall project,
     In project (filteredProjects toLowerCase L tag) ->
     language project <> None /\ language project <> Some EmptyString).
Proof.
  intros Hne.
  assert (E : filteredProjects toLowerCase L tag =
              List.filter (matchesFilter toLowerCase tag) L).
  { unfold filteredProjects.
    apply String.eqb_neq in Hne. rewrite Hne. reflexivity. }
  rewrite E. split; [reflexivity|].
  split; [intros project; apply matchesFilter_iff|].
  split.
  - intros project. rewrite filter_In, matchesFilter_iff. reflexivity.
  - intros project Hin. apply filter_In in Hin as [_ Hm].
    apply matchesFilter_iff in Hm as (l & El & Hl & _).
    rewrite El. split; [discriminate|]. intros Eq. injection Eq as ->.
    now apply Hl.
Qed.

(** C10 (amended): with the empty tag the filter keeps exactly the
    repositories whose language is present and not the empty string, in
    input order, provided the case mapping sends the empty string to
    itself. *)
Theorem filter_empty_tag (L : list Project) :
  toLowerCase EmptyString = EmptyString ->
  filteredProjects toLowerCase L EmptyString =
    List.filter (fun project => truthy (language project)) L /\
  (forall project,
     In project (filteredProjects toLowerCase L EmptyString) <->
     In project L /\
     exists l, language project = Some l /\ l <> EmptyString).
Proof.
  intros E.
  assert (F : filteredProjects toLowerCase L EmptyString =
              List.filter (fun project => truthy (language project)) L).
  { unfold filteredProjects. cbn [String.eqb negb].
    apply filter_ext. intros project. now apply matchesFilter_empty_tag. }
  rewrite F. split; [reflexivity|].
  intros project. rewrite filter_In. unfold truthy.
  destruct (language project) as [l|].
  - rewrite eqb_neq_empty. split.
    + intros [Hin Hl]. split; [exact Hin|]. exists l. auto.
    + intros [Hin (l' & El & Hl)]. injection El as <-. auto.
  - split; [intros [_ H]; discriminate | intros [_ (l & El & _)]; discriminate].
Qed.

End FilterProperties.

(** ** Project renderer *)

Lemma map_from_length {A B : Type} (f : A -> nat -> B) (l : list A) :
  forall start, length (map_from f start l) = length l.
Proof.
  induction l as [|x l IH]; intros start; simpl; [reflexivity|].
  now rewrite IH.
Qed.

Lemma map_from_nth_error {A B : Type} (f : A -> nat -> B) (l : list A) :
  forall start i,
    nth_error (map_from f start l) i =
    option_map (fun x => f x (start + i)) (nth_error l i).
Proof.
  induction l as [|x l IH]; intros start i.
  - destruct i; reflexivity.
  - destruct i as [|i]; simpl.
    + now rewrite Nat.add_0_r.
    + rewrite IH. now rewrite Nat.add_succ_r.
Qed.

Lemma nth_error_slice0 {A : Type} (l : list A) :
  forall n i,
    nth_error (slice0 n l) i = if (i <? n)%nat then nth_error l i else None.
Proof.
  unfold slice0.
  induction l as [|x l IH]; intros n i.
  - rewrite firstn_nil. destruct i; destruct (_ <? _)%nat; reflexivity.
  - destruct n as [|n]; [destruct i; reflexivity|].
    destruct i as [|i]; [reflexivity|].
    simpl firstn. simpl nth_error. rewrite IH. reflexivity.
Qed.

Lemma slice0_min {A : Type} (l : list A) :
  forall n, slice0 (Nat.min (length l) n) l = slice0 n l.
Proof.
  unfold slice0.
  induction l as [|x l IH]; intros n.
  - now rewrite !firstn_nil.
  - destruct n as [|n]; [reflexivity|].
    simpl. now rewrite IH.
Qed.

Section RendererProperties.

Variable toLowerCase : string -> string.

(** C4: the renderer produces the cards of the first [min (length L) 12]
    entries, one card per entry, in input order: card [i] is the card of
    entry [i] for [i < 12] and there is no card from position 12 on; these
    cards, joined, are what [displayProjects] writes for a non-empty list. *)
Theorem display_cap (L : list Project) :
  renderedCards toLowerCase L =
    mapi (createProjectCard toLowerCase)
         (slice0 (Nat.min (length L) 12) L) /\
  length (renderedCards toLowerCase L) = Nat.min (length L) 12 /\
  (forall i,
     nth_error (renderedCards toLowerCase L) i =
     if (i <? 12)%nat
     then option_map (fun project => createProjectCard toLowerCase project i)
                     (nth_error L i)
     else None) /\
  (forall pg,
     projectsContainer (displayProjects toLowerCase L pg) =
     match projectsContainer pg with
     | None => None
     | Some _ =>
         Some match L with
              | [] => noProjectsHtml
              | _ :: _ => join (renderedCards toLowerCase L)
              end
     end).
Proof.
  unfold renderedCards, mapi, CONFIG_maxProjects.
  split; [now rewrite slice0_min|].
  split.
  { rewrite map_from_length. unfold slice0. rewrite length_firstn.
    apply Nat.min_comm. }
  split.
  { intros i. rewrite map_from_nth_error, nth_error_slice0.
    destruct (i <? 12)%nat; reflexivity. }
  intros pg. unfold displayProjects.
  destruct (projectsContainer pg) as [html|] eqn:E; [|exact E].
  destruct L; cbn; rewrite E; reflexivity.
Qed.

Lemma languageBadge_shown (lang : string) :
  languageBadge lang <> EmptyString <-> lang <> "Unknown".
Proof.
  unfold languageBadge.
  destruct (lang =? "Unknown") eqn:E; cbn [negb].
  - apply String.eqb_eq in E. split; intros H; now destruct H.
  - apply String.eqb_neq in E. split; [intros _; exact E | discriminate].
Qed.

Lemma starsBadge_shown (n : Z) :
  starsBadge n <> EmptyString <-> (0 < n)%Z.
Proof.
  unfold starsBadge. destruct (0 <? n)%Z eqn:E.
  - apply Z.ltb_lt in E. split; [intros _; exact E | discriminate].
  - apply Z.ltb_ge in E. split; [intros H; now destruct H | lia].
Qed.

Lemma forksBadge_shown (n : Z) :
  forksBadge n <> EmptyString <-> (0 < n)%Z.
Proof.
  unfold forksBadge. destruct (0 <? n)%Z eqn:E.
  - apply Z.ltb_lt in E. split; [intros _; exact E | discriminate].
  - apply Z.ltb_ge in E. split; [intros H; now destruct H | lia].
Qed.

Lemma or_else_cases (field : option string) (fallback : string) :
  (exists s, field = Some s /\ s <> EmptyString /\ or_else field fallback = s)
  \/ ((field = None \/ field = Some EmptyString)
      /\ or_else field fallback = fallback).
Proof.
  destruct field as [s|]; simpl; [|right; auto].
  destruct (s =? EmptyString) eqn:E.
  - apply String.eqb_eq in E as ->. right; auto.
  - apply String.eqb_neq in E. left. exists s. auto.
Qed.

(** The value of each conditional slot, and the description shown, are part
    of the card. *)
Lemma createProjectCard_slots (project : Project) (index : nat) :
  Contains (createProjectCard toLowerCase project index)
    (ln 20 (languageBadge (or_else (language project) "Unknown"))) /\
  Contains (createProjectCard toLowerCase project index)
    (ln 20 (starsBadge (stargazers_count project))) /\
  Contains (createProjectCard toLowerCase project index)
    (ln 20 (forksBadge (forks_count project))) /\
  Contains (createProjectCard toLowerCase project index)
    (ln 20 (homepageLink project)) /\
  Contains (createProjectCard toLowerCase project index)
    (">" ++ escapeHtml (or_else (description project) noDescription)
     ++ "</p>").
Proof.
  unfold createProjectCard; cbv zeta.
  repeat split.
  - do 13 apply Contains_skip. apply Contains_left, Contains_refl.
  - do 14 apply Contains_skip. apply Contains_left, Contains_refl.
  - do 15 apply Contains_skip. apply Contains_left, Contains_refl.
  - do 26 apply Contains_skip. apply Contains_left, Contains_refl.
  - do 9 apply Contains_skip. apply Contains_left. unfold ln.
    do 4 apply Contains_skip. apply Contains_refl.
Qed.

Lemma createProjectCard_specCard (project : Project) (index : nat) :
  createProjectCard toLowerCase project index
  = specCard toLowerCase project index.
Proof.
  unfold createProjectCard, specCard, cardParts, countBadge, languageBadge,
    starsBadge, forksBadge, homepageLink, or_else.
  cbv zeta.
  cbn [part_language part_stars part_forks part_homepage part_description].
  destruct (description project) as [d|]; [destruct (d =? EmptyString)|];
    (destruct (homepage project) as [url|];
       [destruct (url =? EmptyString)|]);
    cbn [negb];
    destruct (0 <? stargazers_count project)%Z;
    destruct (0 <? forks_count project)%Z;
    (destruct (language project) as [l|];
       [destruct (l =? EmptyString); cbn [orb];
          [|destruct (l =? "Unknown") eqn:Eu;
              [apply String.eqb_eq in Eu; subst l|]] |]);
    reflexivity.
Qed.

Lemma cardParts_language (project : Project) (l : string) :
  part_language (cardParts project) = Some l <->
  language project = Some l /\ l <> EmptyString /\ l <> "Unknown".
Proof.
  cbn [cardParts part_language].
  destruct (language project) as [l'|];
    [|split; [discriminate | intros [E _]; discriminate]].
  destruct (l' =? EmptyString) eqn:Ee; cbn [orb].
  - apply String.eqb_eq in Ee as ->.
    split; [discriminate|]. intros (E & Hne & _). injection E as <-.
    now destruct Hne.
  - apply String.eqb_neq in Ee.
    destruct (l' =? "Unknown") eqn:Eu.
    + apply String.eqb_eq in Eu as ->.
      split; [discriminate|]. intros (E & _ & Hne). injection E as <-.
      now destruct Hne.
    + apply String.eqb_neq in Eu. split.
      * intros E. injection E as <-. auto.
      * intros (E & _). exact E.
Qed.

Lemma cardParts_homepage (project : Project) (url : string) :
  part_homepage (cardParts project) = Some url <->
  homepage project = Some url /\ url <> EmptyString.
Proof.
  cbn [cardParts part_homepage].
  destruct (homepage project) as [u|];
    [|split; [discriminate | intros [E _]; discriminate]].
  destruct (u =? EmptyString) eqn:Ee.
  - apply String.eqb_eq in Ee as ->.
    split; [discriminate|]. intros (E & Hne). injection E as <-.
    now destruct Hne.
  - apply String.eqb_neq in Ee. split.
    + intros E. injection E as <-. auto.
    + intros (E & _). exact E.
Qed.

Lemma cardParts_description (project : Project) :
  (part_description (cardParts project) = noDescription <->
   description project = None \/ description project = Some EmptyString \/
   description project = Some noDescription) /\
  (forall d, description project = Some d -> d <> EmptyString ->
             part_description (cardParts project) = d).
Proof.
  cbn [cardParts part_description].
  destruct (description project) as [d|].
  - destruct (d =? EmptyString) eqn:Ee.
    + apply String.eqb_eq in Ee as ->. split; [split; auto|].
      intros d' E Hne. injection E as <-. now destruct Hne.
    + apply String.eqb_neq in Ee. split.
      * split.
        -- intros ->. auto.
        -- intros [H|[H|H]]; try discriminate; injection H as H;
             [now destruct Ee | exact H].
      * intros d' E _. now injection E as <-.
  - split; [split; auto | intros d E; discriminate].
Qed.

(** C5 (amended): the card of a repository is the fixed markup of the card
    with, in the place of the language badge, a badge holding the escaped
    language exactly when the language is present, not empty and not the
    word "Unknown"; in the place of the star badge a badge exactly when the
    star count is positive; in the place of the fork badge a badge exactly
    when the fork count is positive; in the place after the repository link
    a homepage link exactly when the homepage is present and not empty; and
    each of these places is empty otherwise.  The description shown is the
    fixed placeholder exactly when the description is absent, empty, or
    that very text, and the description itself when it is present and not
    empty. *)
Theorem card_conditional_parts (project : Project) (index : nat) :
  createProjectCard toLowerCase project index
    = specCard toLowerCase project index /\
  (forall l,
     part_language (cardParts project) = Some l <->
     language project = Some l /\ l <> EmptyString /\ l <> "Unknown") /\
  (forall n,
     part_stars (cardParts project) = Some n <->
     stargazers_count project = n /\ (0 < n)%Z) /\
  (forall n,
     part_forks (cardParts project) = Some n <->
     forks_count project = n /\ (0 < n)%Z) /\
  (forall url,
     part_homepage (cardParts project) = Some url <->
     homepage project = Some url /\ url <> EmptyString) /\
  (part_description (cardParts project) = noDescription <->
   description project = None \/ description project = Some EmptyString \/
   description project = Some noDescription) /\
  (forall d, description project = Some d -> d <> EmptyString ->
             part_description (cardParts project) = d).
Proof.
  split; [apply createProjectCard_specCard|].
  split; [apply cardParts_language|].
  split.
  { intros n. cbn [cardParts part_stars].
    destruct (0 <? stargazers_count project)%Z eqn:E.
    - apply Z.ltb_lt in E. split.
      + intros H. injection H as <-. auto.
      + intros [-> _]. reflexivity.
    - apply Z.ltb_ge in E. split; [discriminate | intros [<- H]; lia]. }
  split.
  { intros n. cbn [cardParts part_forks].
    destruct (0 <? forks_count project)%Z eqn:E.
    - apply Z.ltb_lt in E. split.
      + intros H. injection H as <-. auto.
      + intros [-> _]. reflexivity.
    - apply Z.ltb_ge in E. split; [discriminate | intros [<- H]; lia]. }
  split; [apply cardParts_homepage|].
  apply cardParts_description.
Qed.

End RendererProperties.

(** ** Statistics aggregator *)

Lemma reduce_total (count : Project -> Z) (L : list Project) :
  forall acc,
    reduce (fun sum repo => sum + count repo)%Z acc L
    = (acc + total count L)%Z.
Proof.
  unfold reduce, total.
  induction L as [|repo L IH]; intros acc; simpl.
  - lia.
  - rewrite IH. lia.
Qed.

Lemma set_innerHTML_frame (html : string) (pg : Page) :
  state (set_innerHTML html pg) = state pg /\
  animations (set_innerHTML html pg) = animations pg /\
  filterButtons (set_innerHTML html pg) = filterButtons pg.
Proof. repeat split. Qed.

Lemma displayProjects_frame (lower : string -> string)
  (projects : list Project) (pg : Page) :
  state (displayProjects lower projects pg) = state pg /\
  animations (displayProjects lower projects pg) = animations pg /\
  filterButtons (displayProjects lower projects pg) = filterButtons pg.
Proof.
  unfold displayProjects.
  destruct (projectsContainer pg); [|repeat split].
  destruct (length projects =? 0)%nat; apply set_innerHTML_frame.
Qed.

(** C6: the star total and the fork total are the sums of the star counts
    and of the fork counts over the whole fetched list; a successful fetch
    hands exactly these totals to the counters whatever the active filter
    and however long the list, and selecting a filter starts no counter
    again.  Star counts 3, 0, 5 and fork counts 1, 2, 0 give 8 and 3. *)
Theorem stats_totals (userData : UserData) (reposData : list Project) :
  stars (computeStats userData reposData)
    = total stargazers_count reposData /\
  forks (computeStats userData reposData) = total forks_count reposData /\
  (forall lower pg,
     animations
       (fetchGitHubData_resume lower (Response true (inr userData))
          (Response true (inr reposData)) pg)
     = (animations pg ++
        [("repoCount", public_repos userData);
         ("followerCount", followers userData);
         ("totalStars", total stargazers_count reposData);
         ("totalForks", total forks_count reposData)])%list) /\
  (forall lower filter pg,
     animations (filterProjects lower filter pg) = animations pg) /\
  stars (computeStats userData [counted 3 1; counted 0 2; counted 5 0]) = 8%Z
  /\
  forks (computeStats userData [counted 3 1; counted 0 2; counted 5 0]) = 3%Z.
Proof.
  assert (Es : stars (computeStats userData reposData)
               = total stargazers_count reposData).
  { cbn [computeStats stars]. now rewrite reduce_total. }
  assert (Ef : forks (computeStats userData reposData)
               = total forks_count reposData).
  { cbn [computeStats forks]. now rewrite reduce_total. }
  split; [exact Es|]. split; [exact Ef|].
  split.
  { intros lower pg. unfold fetchGitHubData_resume.
    cbn [fetchGitHubUser fetchGitHubRepos negb Promise_all with_state
         animations].
    destruct (displayProjects_frame lower reposData
                (with_state (set_allProjects reposData)
                   (updateStats userData reposData pg))) as (_ & -> & _).
    unfold updateStats. cbn [with_state animateNumber animations].
    rewrite Es, Ef. cbn [computeStats repos stat_followers].
    rewrite <- !app_assoc. reflexivity. }
  split.
  { intros lower filter pg. unfold filterProjects.
    match goal with
    | |- animations (displayProjects ?l ?ps ?p) = _ =>
        destruct (displayProjects_frame l ps p) as (_ & -> & _)
    end.
    reflexivity. }
  split; reflexivity.
Qed.

(** ** Remote data client and view state *)

Lemma fetchGitHubUser_failed (reply : Fetched UserData) :
  failed reply = true -> exists e, fetchGitHubUser reply = Threw e.
Proof.
  destruct reply as [reason|ok [reason|data]]; simpl.
  - intros _. now exists reason.
  - intros _. destruct ok; simpl; eauto.
  - destruct ok; simpl; [discriminate|eauto].
Qed.

Lemma fetchGitHubRepos_failed (reply : Fetched (list Project)) :
  failed reply = true -> exists e, fetchGitHubRepos reply = Threw e.
Proof.
  destruct reply as [reason|ok [reason|data]]; simpl.
  - intros _. now exists reason.
  - intros _. destruct ok; simpl; eauto.
  - destruct ok; simpl; [discriminate|eauto].
Qed.

Lemma Promise_all_rejects {A B : Type} (a : Outcome A) (b : Outcome B) :
  (exists e, a = Threw e) \/ (exists e, b = Threw e) ->
  exists e, Promise_all a b = Threw e.
Proof.
  intros [[e ->]|[e ->]]; simpl; [eauto|].
  destruct a; simpl; eauto.
Qed.

Lemma body_fetchGitHubUser (reply : Fetched UserData) (data : UserData) :
  body reply = Some data -> fetchGitHubUser reply = Returned data.
Proof.
  destruct reply as [?|[] [?|?]]; simpl; intros E; try discriminate.
  now injection E as ->.
Qed.

Lemma body_fetchGitHubRepos (reply : Fetched (list Project))
  (data : list Project) :
  body reply = Some data -> fetchGitHubRepos reply = Returned data.
Proof.
  destruct reply as [?|[] [?|?]]; simpl; intros E; try discriminate.
  now injection E as ->.
Qed.

Lemma body_None_failed {A : Type} (reply : Fetched A) :
  body reply = None -> failed reply = true.
Proof.
  destruct reply as [?|[] [?|?]]; simpl; intros E;
    try reflexivity; discriminate.
Qed.

Section FetchProperties.

Variable toLowerCase : string -> string.

(** After a failed request the continuation only shows the error and clears
    the busy flag. *)
Lemma fetchGitHubData_resume_failed (user : Fetched UserData)
  (repos : Fetched (list Project)) (pg : Page) :
  failed user = true \/ failed repos = true ->
  fetchGitHubData_resume toLowerCase user repos pg =
  with_state (set_isLoading false) (showError fetchErrorMessage pg).
Proof.
  intros Hfail. unfold fetchGitHubData_resume.
  destruct (Promise_all_rejects (fetchGitHubUser user)
              (fetchGitHubRepos repos)) as [e ->]; [|reflexivity].
  destruct Hfail as [H|H];
    [left; now apply fetchGitHubUser_failed
    |right; now apply fetchGitHubRepos_failed].
Qed.


(** C9 (amended): each event touches the view state as follows.  Starting a
    fetch leaves the stored list and the active filter alone.  A fetch that
    settles leaves the active filter as it was, whatever it was, and
    replaces the stored list by the fetched one exactly when both requests
    succeeded (otherwise the list stays).  A filter selection sets the
    active filter to the selected tag and leaves the stored list and the
    busy flag alone. *)
Theorem view_state_frame (pg : Page) (ev : Event) :
  match ev with
  | FetchStarts =>
      allProjects (state (step toLowerCase pg ev)) = allProjects (state pg) /\
      currentFilter (state (step toLowerCase pg ev)) = currentFilter (state pg)
  | FetchSettles user repos =>
      currentFilter (state (step toLowerCase pg ev)) = currentFilter (state pg)
      /\
      allProjects (state (step toLowerCase pg ev)) =
      match body user, body repos with
      | Some _, Some reposData => reposData
      | _, _ => allProjects (state pg)
      end
  | FilterClicked filter =>
      currentFilter (state (step toLowerCase pg ev)) = filter /\
      allProjects (state (step toLowerCase pg ev)) = allProjects (state pg) /\
      isLoading (state (step toLowerCase pg ev)) = isLoading (state pg)
  end.
Proof.
  destruct ev as [|user repos|filter]; cbn [step].
  - unfold fetchGitHubData_start.
    destruct (isLoading (state pg)); split; reflexivity.
  - destruct (body user) as [userData|] eqn:Eu;
      [destruct (body repos) as [reposData|] eqn:Er|].
    + unfold fetchGitHubData_resume.
      rewrite (body_fetchGitHubUser _ _ Eu), (body_fetchGitHubRepos _ _ Er).
      cbn [Promise_all with_state state set_isLoading currentFilter
           allProjects].
      destruct (displayProjects_frame toLowerCase reposData
                  (with_state (set_allProjects reposData)
                     (updateStats userData reposData pg))) as (-> & _).
      split; reflexivity.
    + rewrite fetchGitHubData_resume_failed
        by (right; now apply body_None_failed).
      split; reflexivity.
    + rewrite fetchGitHubData_resume_failed
        by (left; now apply body_None_failed).
      split; reflexivity.
  - unfold filterProjects.
    match goal with
    | |- context [displayProjects ?l ?ps ?p] =>
        destruct (displayProjects_frame l ps p) as (-> & _)
    end.
    repeat split.
Qed.

End FetchProperties.

(** ** Upload helper *)

(** C8: the change handler accepts the selected file exactly when its type
    is "application/pdf" and its size is at most 5 MiB: then the download
    link takes the object URL and the name of the file; otherwise a failure
    message is shown and the download link keeps the address and the name
    it had.  A PDF of 5 MiB is accepted, one of 5 MiB and a byte is not, and
    no file of another type is. *)
Theorem upload_validation (createObjectURL : File -> string) (file : File)
  (ui : UploadUI) :
  (if acceptable file
   then
     handleResumeUpload createObjectURL (Some file) ui =
     {| status_textContent := "✓ Uploaded: " ++ file_name file;
        status_color := "#43e97b";
        downloadBtn_href := createObjectURL file;
        downloadBtn_download := file_name file |}
   else
     downloadBtn_href (handleResumeUpload createObjectURL (Some file) ui)
       = downloadBtn_href ui /\
     downloadBtn_download (handleResumeUpload createObjectURL (Some file) ui)
       = downloadBtn_download ui /\
     status_color (handleResumeUpload createObjectURL (Some file) ui)
       = "#ff6b6b" /\
     (status_textContent (handleResumeUpload createObjectURL (Some file) ui)
        = "❌ Please upload a PDF file" \/
      status_textContent (handleResumeUpload createObjectURL (Some file) ui)
        = "❌ File size must be less than 5MB")) /\
  acceptable (pdfOfSize (5 * 1024 * 1024)) = true /\
  acceptable (pdfOfSize (5 * 1024 * 1024 + 1)) = false /\
  (if file_type file =? "application/pdf" then True
   else acceptable file = false) /\
  handleResumeUpload createObjectURL None ui = ui.
Proof.
  split.
  { unfold acceptable, handleResumeUpload, maxResumeSize.
    destruct (file_type file =? "application/pdf"); cbn [negb andb].
    - rewrite Z.leb_antisym.
      destruct (5 * 1024 * 1024 <? file_size file)%Z; cbn [negb].
      + repeat split. now right.
      + reflexivity.
    - repeat split. now left. }
  split; [reflexivity|]. split; [reflexivity|].
  split; [|reflexivity].
  unfold acceptable. destruct (file_type file =? "application/pdf");
    [exact I | reflexivity].
Qed.

(** ** Escaping in the card *)

(** The characters the escaping function gives special treatment never reach
    its output as they are. *)
Lemma escapeHtml_no_markup (text : string) :
  includes (escapeHtml text) "<" = false /\
  includes (escapeHtml text) ">" = false.
Proof.
  assert (G : forall n text', (String.length text' <= n)%nat ->
              includes (escapeHtml text') "<" = false /\
              includes (escapeHtml text') ">" = false).
  { induction n as [|n IH]; intros text' Hlen.
    - destruct text'; [split; reflexivity | simpl in Hlen; lia].
    - destruct text' as [|c rest]; [split; reflexivity|].
      simpl in Hlen. assert (Hrest : (String.length rest <= n)%nat) by lia.
      destruct (IH rest Hrest) as [IH1 IH2].
      cbn [escapeHtml].
      destruct (c =? "&")%char eqn:Eamp;
        [cbn; rewrite IH1, IH2; split; reflexivity|].
      destruct (c =? "<")%char eqn:Elt;
        [cbn; rewrite IH1, IH2; split; reflexivity|].
      destruct (c =? ">")%char eqn:Egt;
        [cbn; rewrite IH1, IH2; split; reflexivity|].
      apply Ascii.eqb_neq in Elt, Egt.
      assert (Hc : forall tail,
                 includes tail "<" = false /\ includes tail ">" = false ->
                 includes (String c tail) "<" = false /\
                 includes (String c tail) ">" = false).
      { intros tail [T1 T2].
        rewrite (includes_unfold (String c tail) "<").
        rewrite (includes_unfold (String c tail) ">").
        cbv iota. rewrite T1, T2. cbn [prefix].
        destruct (ascii_dec "<" c) as [<-|_]; [now destruct Elt|].
        destruct (ascii_dec ">" c) as [<-|_]; [now destruct Egt|].
        split; reflexivity. }
      destruct rest as [|c' rest'].
      + apply Hc. split; reflexivity.
      + destruct ((c =? ascii_of_nat 194) && (c' =? ascii_of_nat 160))%char.
        * simpl in Hrest.
          destruct (IH rest' ltac:(lia)) as [R1 R2].
          cbn; rewrite R1, R2; split; reflexivity.
        * apply Hc. split; assumption. }
  apply (G (String.length text)). lia.
Qed.

Section EscapingProperties.

Variable toLowerCase : string -> string.

(** Whatever the repository, the markup of its card holds the name escaped
    in the title, the name as it is in the label of the repository link, and
    the lowercased language as it is in the [data-language] attribute. *)
Lemma createProjectCard_name_places (project : Project) (index : nat) :
  Contains (createProjectCard toLowerCase project index)
    ("<span>" ++ escapeHtml (name project) ++ "</span>") /\
  Contains (createProjectCard toLowerCase project index)
    ("aria-label=" ++ q ("View " ++ name project ++ " on GitHub")) /\
  Contains (createProjectCard toLowerCase project index)
    ("data-language="
     ++ q (toLowerCase (or_else (language project) "Unknown")) ++ " ").
Proof.
  unfold createProjectCard; cbv zeta.
  split; [|split].
  - do 7 apply Contains_skip. apply Contains_left. unfold ln.
    do 2 apply Contains_skip. apply Contains_refl.
  - do 22 apply Contains_skip. apply Contains_left. unfold ln.
    do 2 apply Contains_skip. apply Contains_refl.
  - do 1 apply Contains_skip. apply Contains_left. unfold ln.
    do 2 apply Contains_skip. apply Contains_refl.
Qed.

End EscapingProperties.

(** C1: the card of a repository named [<img src=x onerror=alert(1)>] with
    language [<b>] holds the name escaped in its title, and holds the name
    and the language with their angle brackets as they are in the label of
    the link and in the [data-language] attribute; a name that begins with
    a double quote ends the label and is followed by its own markup. *)
Theorem card_name_not_escaped :
  escapeHtml (name xssProject) = "&lt;img src=x onerror=alert(1)&gt;" /\
  includes (createProjectCard asciiLower xssProject 0)
    "<span>&lt;img src=x onerror=alert(1)&gt;</span>" = true /\
  includes (createProjectCard asciiLower xssProject 0)
    ("aria-label=" ++ q "View <img src=x onerror=alert(1)> on GitHub") = true
  /\
  includes (createProjectCard asciiLower xssProject 0)
    "<img src=x onerror=alert(1)>" = true /\
  includes (createProjectCard asciiLower xssProject 0)
    ("data-language=" ++ q "<b>") = true /\
  includes (createProjectCard asciiLower quoteProject 0)
    ("aria-label=" ++ q "View " ++ "><img src=x onerror=alert(1)> on GitHub")
    = true.
Proof. repeat split; vm_compute; reflexivity. Qed.

(** ** Concrete runs *)

(** A repository in TypeScript answers to the tags "script", "TYPESCRIPT"
    and "type", not to "java". *)
Example typescript_tags :
  filteredProjects asciiLower [tsRepo] "script" = [tsRepo] /\
  filteredProjects asciiLower [tsRepo] "TYPESCRIPT" = [tsRepo] /\
  filteredProjects asciiLower [tsRepo] "type" = [tsRepo] /\
  filteredProjects asciiLower [tsRepo] "java" = [].
Proof. repeat split. Qed.

Lemma filter_by_tag_witness :
  "script" <> "all" /\
  filteredProjects asciiLower [tsRepo; pyRepo; noLangRepo] "script" =
    List.filter (matchesFilter asciiLower "script")
                [tsRepo; pyRepo; noLangRepo].
Proof.
  split; [discriminate|].
  exact (proj1 (filter_by_tag asciiLower [tsRepo; pyRepo; noLangRepo]
                  "script" ltac:(discriminate))).
Defined.

(** The filter as the specification words it keeps a repository whose
    language is the empty string under the empty tag; the script drops
    it. *)
Lemma filter_by_tag_counterexample :
  EmptyString <> "all" /\
  filteredProjects asciiLower [tsRepo; emptyLangRepo; noLangRepo] EmptyString
    = [tsRepo] /\
  List.filter (specMatches asciiLower EmptyString)
              [tsRepo; emptyLangRepo; noLangRepo]
    = [tsRepo; emptyLangRepo] /\
  filteredProjects asciiLower [tsRepo; emptyLangRepo; noLangRepo] EmptyString
    <> List.filter (specMatches asciiLower EmptyString)
                   [tsRepo; emptyLangRepo; noLangRepo].
Proof.
  split; [discriminate|].
  split; [reflexivity|]. split; [reflexivity|].
  vm_compute. discriminate.
Qed.

Lemma filter_empty_tag_witness :
  asciiLower EmptyString = EmptyString /\
  filteredProjects asciiLower [emptyLangRepo; pyRepo; noLangRepo] EmptyString
    = List.filter (fun project => truthy (language project))
                  [emptyLangRepo; pyRepo; noLangRepo].
Proof.
  split; [reflexivity|].
  exact (proj1 (filter_empty_tag asciiLower [emptyLangRepo; pyRepo; noLangRepo]
                  eq_refl)).
Defined.

(** Under the empty tag a repository whose language is present but empty is
    dropped, so the result is not the list of repositories with a language
    present. *)
Lemma filter_empty_tag_counterexample :
  languagePresent emptyLangRepo = true /\
  filteredProjects asciiLower [emptyLangRepo; pyRepo] EmptyString = [pyRepo]
  /\
  List.filter languagePresent [emptyLangRepo; pyRepo]
    = [emptyLangRepo; pyRepo] /\
  filteredProjects asciiLower [emptyLangRepo; pyRepo] EmptyString
    <> List.filter languagePresent [emptyLangRepo; pyRepo].
Proof.
  split; [reflexivity|]. split; [reflexivity|]. split; [reflexivity|].
  vm_compute. discriminate.
Qed.

(** A homepage that is present as the empty string gets no second link, a
    description that is present as the empty string gets the placeholder,
    and a language that is present as the word "Unknown" gets no badge. *)
Lemma card_conditional_parts_counterexample :
  homepage plainRepo <> None /\
  homepageLink plainRepo = EmptyString /\
  includes (createProjectCard asciiLower plainRepo 0) "Live Demo" = false /\
  description plainRepo <> None /\
  includes (createProjectCard asciiLower plainRepo 0)
    (">" ++ noDescription ++ "</p>") = true /\
  language unknownLangRepo <> None /\
  languageBadge (or_else (language unknownLangRepo) "Unknown") = EmptyString
  /\
  includes (createProjectCard asciiLower unknownLangRepo 0)
    ("<span class=" ++ q "tech-badge" ++ ">") = false.
Proof.
  repeat split; try discriminate; vm_compute; reflexivity.
Qed.


(** A filter selected while the fetch is in flight is still the active
    filter after the fetch has succeeded and replaced the stored list. *)
Lemma view_state_frame_counterexample :
  allProjects
    (state (run asciiLower
              [FetchStarts; FilterClicked "python";
               FetchSettles (Response true (inr someUser))
                            (Response true (inr [tsRepo; pyRepo]))]
              page0))
  = [tsRepo; pyRepo] /\
  currentFilter
    (state (run asciiLower
              [FetchStarts; FilterClicked "python";
               FetchSettles (Response true (inr someUser))
                            (Response true (inr [tsRepo; pyRepo]))]
              page0))
  = "python" /\
  currentFilter
    (state (run asciiLower
              [FetchStarts; FilterClicked "python";
               FetchSettles (Response true (inr someUser))
                            (Response true (inr [tsRepo; pyRepo]))]
              page0))
  <> "all".
Proof.
  split; [reflexivity|]. split; [reflexivity|].
  vm_compute. discriminate.
Qed.

(** The boundary files of the upload helper, run through the handler. *)
Example upload_boundaries :
  downloadBtn_href
    (handleResumeUpload blobUrl (Some (pdfOfSize (5 * 1024 * 1024))) ui0)
    = "blob:resume.pdf" /\
  handleResumeUpload blobUrl (Some (pdfOfSize (5 * 1024 * 1024 + 1))) ui0
    = {| status_textContent := "❌ File size must be less than 5MB";
         status_color := "#ff6b6b";
         downloadBtn_href := "assets/resume.pdf";
         downloadBtn_download := "resume.pdf" |} /\
  handleResumeUpload blobUrl
    (Some {| file_name := "cv.txt"; file_type := "text/plain";
             file_size := 10 |}) ui0
    = {| status_textContent := "❌ Please upload a PDF file";
         status_color := "#ff6b6b";
         downloadBtn_href := "assets/resume.pdf";
         downloadBtn_download := "resume.pdf" |}.
Proof. repeat split. Qed.

(** ** Further properties: escaping *)

(** X1: Whatever the text, its escaped form has no [<] and no [>] anywhere in
    it. *)
Theorem escapeHtml_no_angle_brackets (text : string) :
  ~ Contains (escapeHtml text) "<" /\ ~ Contains (escapeHtml text) ">".
Proof.
  destruct (escapeHtml_no_markup text) as [Hlt Hgt].
  split; intros H; apply includes_Contains in H; congruence.
Qed.

Lemma prefix_empty (s : string) : prefix EmptyString s = true.
Proof. destruct s; reflexivity. Qed.

Lemma includes_char_cons (a c : ascii) (rest : string) :
  includes (String c rest) (String a EmptyString) = false ->
  (c =? a)%char = false /\ includes rest (String a EmptyString) = false.
Proof.
  rewrite includes_unfold. intros H.
  apply orb_false_iff in H as [Hp Hrest]. split; [|exact Hrest].
  cbn [prefix] in Hp. destruct (ascii_dec a c) as [->|Hne].
  - rewrite prefix_empty in Hp. discriminate.
  - apply Ascii.eqb_neq. congruence.
Qed.

Lemma includes_noBreakSpace_cons (c c' : ascii) (rest : string) :
  includes (String c (String c' rest)) noBreakSpace = false ->
  ((c =? ascii_of_nat 194) && (c' =? ascii_of_nat 160))%char = false.
Proof.
  rewrite includes_unfold. intros H.
  apply orb_false_iff in H as [Hp _].
  unfold noBreakSpace in Hp. cbn [prefix] in Hp.
  destruct (c =? ascii_of_nat 194)%char eqn:E1; [|reflexivity].
  destruct (c' =? ascii_of_nat 160)%char eqn:E2; [|reflexivity].
  apply Ascii.eqb_eq in E1, E2. subst c c'.
  destruct (ascii_dec (ascii_of_nat 194) (ascii_of_nat 194)) as [_|Hne];
    [|now destruct Hne].
  destruct (ascii_dec (ascii_of_nat 160) (ascii_of_nat 160)) as [_|Hne];
    [|now destruct Hne].
  rewrite prefix_empty in Hp. discriminate.
Qed.

Lemma includes_tail_false (c : ascii) (rest needle : string) :
  includes (String c rest) needle = false -> includes rest needle = false.
Proof.
  rewrite includes_unfold. intros H. now apply orb_false_iff in H as [_ H].
Qed.

Lemma escapeHtml_quote_front (text : string) :
  escapeHtml (String (ascii_of_nat 34) text)
  = String (ascii_of_nat 34) (escapeHtml text).
Proof. destruct text; reflexivity. Qed.

(** Plain text in front of a tail that does not begin with the second byte
    of the no-break space is copied, and the tail is escaped on its own. *)
Lemma escapeHtml_plain_append (text tail : string) :
  includes text "&" = false -> includes text "<" = false ->
  includes text ">" = false -> includes text noBreakSpace = false ->
  (forall c r, tail = String c r -> (c =? ascii_of_nat 160)%char = false) ->
  escapeHtml (text ++ tail) = text ++ escapeHtml tail.
Proof.
  intros Hamp Hlt Hgt Hnb Htail.
  induction text as [|c rest IH]; [reflexivity|].
  apply includes_char_cons in Hamp as [Ea Hamp].
  apply includes_char_cons in Hlt as [El Hlt].
  apply includes_char_cons in Hgt as [Eg Hgt].
  pose proof (includes_tail_false _ _ _ Hnb) as Hnb'.
  specialize (IH Hamp Hlt Hgt Hnb').
  change (String c rest ++ tail) with (String c (rest ++ tail)).
  cbn [escapeHtml]. rewrite Ea, El, Eg.
  destruct rest as [|c' rest'].
  - change (EmptyString ++ tail) with tail in *.
    destruct tail as [|t tail']; [reflexivity|].
    rewrite (Htail t tail' eq_refl), andb_false_r. reflexivity.
  - change (String c' rest' ++ tail) with (String c' (rest' ++ tail)) in *.
    cbv iota beta.
    rewrite (includes_noBreakSpace_cons _ _ _ Hnb). now rewrite IH.
Qed.

(** X2: Text that has no [&], no [<], no [>] and no no-break space in it
    comes out of the escaping function as it went in, and so does that text
    between double quotes: the double quote is not escaped. *)
Theorem escapeHtml_plain (text : string) :
  includes text "&" = false -> includes text "<" = false ->
  includes text ">" = false -> includes text noBreakSpace = false ->
  escapeHtml text = text /\ escapeHtml (q text) = q text.
Proof.
  intros Hamp Hlt Hgt Hnb. split.
  - rewrite <- (append_empty_r text) at 1.
    rewrite escapeHtml_plain_append; try assumption.
    + apply append_empty_r.
    + intros c r E. discriminate E.
  - unfold q, dq.
    change (String (ascii_of_nat 34) EmptyString
            ++ text ++ String (ascii_of_nat 34) EmptyString)
      with (String (ascii_of_nat 34)
              (text ++ String (ascii_of_nat 34) EmptyString)).
    rewrite escapeHtml_quote_front.
    rewrite escapeHtml_plain_append; try assumption; [reflexivity|].
    intros c r Ec. injection Ec as <- _. reflexivity.
Qed.

Lemma escapeHtml_plain_witness :
  includes "© 2024 portfolio-site" "&" = false /\
  includes "© 2024 portfolio-site" "<" = false /\
  includes "© 2024 portfolio-site" ">" = false /\
  includes "© 2024 portfolio-site" noBreakSpace = false /\
  escapeHtml "© 2024 portfolio-site" = "© 2024 portfolio-site".
Proof.
  repeat (split; [reflexivity|]).
  exact (proj1 (escapeHtml_plain "© 2024 portfolio-site"
                  eq_refl eq_refl eq_refl eq_refl)).
Defined.

(** ** Further properties: the joint fetch *)

(** X4: The joint fetch delivers a profile and a repository list exactly when
    both replies carry a success status and a readable body; a readable body
    under a non-success status is not delivered. *)
Theorem joint_fetch_delivers_iff (user : Fetched UserData)
  (repos : Fetched (list Project)) (userData : UserData)
  (reposData : list Project) :
  Promise_all (fetchGitHubUser user) (fetchGitHubRepos repos)
    = Returned (userData, reposData)
  <-> user = Response true (inr userData) /\
      repos = Response true (inr reposData).
Proof.
  split.
  - destruct user as [?|[] [?|?]]; destruct repos as [?|[] [?|?]];
      simpl; intros E; try discriminate.
    injection E as -> ->. split; reflexivity.
  - intros [-> ->]. reflexivity.
Qed.

Section BusyFlag.

Variable toLowerCase : string -> string.

(** X5: The busy flag: however the requests end, the flag is cleared when the
    fetch settles; a call of [fetchGitHubData] on a busy page changes
    nothing, and on an idle page it ends with the flag cleared; starting a
    fetch twice in a row is the same as starting it once. *)
Theorem busy_flag_discipline (user : Fetched UserData)
  (repos : Fetched (list Project)) (pg : Page) :
  isLoading (state (fetchGitHubData_resume toLowerCase user repos pg)) = false
  /\
  (if isLoading (state pg)
   then fetchGitHubData toLowerCase user repos pg = pg
   else isLoading (state (fetchGitHubData toLowerCase user repos pg)) = false)
  /\
  step toLowerCase (step toLowerCase pg FetchStarts) FetchStarts
    = step toLowerCase pg FetchStarts /\
  (if isLoading (state pg)
   then step toLowerCase pg FetchStarts = pg
   else isLoading (state (step toLowerCase pg FetchStarts)) = true).
Proof.
  split; [reflexivity|].
  unfold fetchGitHubData. cbn [step]. unfold fetchGitHubData_start.
  destruct (isLoading (state pg)) eqn:E.
  - rewrite E. repeat split.
  - repeat split.
Qed.

Lemma displayProjects_container (projects : list Project) (pg : Page) :
  projectsContainer (displayProjects toLowerCase projects pg) =
  match projectsContainer pg with
  | None => None
  | Some _ =>
      Some match projects with
           | [] => noProjectsHtml
           | _ :: _ => join (renderedCards toLowerCase projects)
           end
  end.
Proof.
  unfold displayProjects.
  destruct (projectsContainer pg) as [html|] eqn:E; [|exact E].
  destruct projects; cbn; rewrite E; reflexivity.
Qed.

Lemma cards_not_loading (project : Project) (rest : list Project)
  (pg : Page) (html : string) :
  projectsContainer pg = Some html ->
  Some (join (renderedCards toLowerCase (project :: rest)))
  <> projectsContainer (showLoading pg).
Proof.
  intros E H. unfold showLoading, set_innerHTML in H.
  cbn [projectsContainer] in H. rewrite E in H.
  apply (f_equal (option_map (String.get 9))) in H.
  vm_compute in H. discriminate H.
Qed.

(** X6: When the fetch settles, the loading placeholder does not stay: on a page
    that has the container, what the container holds afterwards (the error
    message, the cards, or the note that there are no projects) differs from
    the placeholder. *)
Theorem loading_placeholder_replaced (user : Fetched UserData)
  (repos : Fetched (list Project)) (pg : Page) :
  projectsContainer pg <> None ->
  projectsContainer (fetchGitHubData_resume toLowerCase user repos pg)
  <> projectsContainer (showLoading pg).
Proof.
  intros Hc. destruct (projectsContainer pg) as [html|] eqn:E;
    [clear Hc | now destruct Hc].
  unfold fetchGitHubData_resume.
  destruct (Promise_all (fetchGitHubUser user) (fetchGitHubRepos repos))
    as [[userData reposData]|e].
  - cbn [with_state projectsContainer].
    rewrite displayProjects_container.
    cbn [with_state projectsContainer updateStats animateNumber].
    rewrite E.
    destruct reposData as [|project rest].
    + unfold showLoading, set_innerHTML. cbn [projectsContainer].
      rewrite E. vm_compute. discriminate.
    + now apply cards_not_loading with (html := html).
  - unfold showError, showLoading, set_innerHTML.
    cbn [with_state projectsContainer]. rewrite E.
    vm_compute. discriminate.
Qed.

End BusyFlag.

Lemma loading_placeholder_replaced_witness :
  projectsContainer (showLoading page0) <> None /\
  projectsContainer
    (fetchGitHubData_resume asciiLower (Response true (inr someUser))
       (Rejected "offline") (showLoading page0))
  <> projectsContainer (showLoading (showLoading page0)).
Proof.
  split; [discriminate|].
  apply (loading_placeholder_replaced asciiLower). discriminate.
Defined.

(** ** Further properties: the view and the filter *)

Lemma Contains_trans (a b c : string) :
  Contains a b -> Contains b c -> Contains a c.
Proof.
  intros (before & after & ->) (before' & after' & ->).
  exists (before ++ before'), (after' ++ after).
  now rewrite !append_assoc.
Qed.

Lemma filter_filter_implied {A : Type} (f g : A -> bool) (l : list A) :
  (forall x, g x = true -> f x = true) ->
  List.filter g (List.filter f l) = List.filter g l.
Proof.
  intros Himp. induction l as [|x l IH]; [reflexivity|].
  simpl. destruct (f x) eqn:Ef; simpl.
  - now rewrite IH.
  - destruct (g x) eqn:Eg; [|exact IH].
    rewrite (Himp x Eg) in Ef. discriminate.
Qed.

Section ViewProperties.

Variable toLowerCase : string -> string.

Lemma filterProjects_state (filter : string) (pg : Page) :
  state (filterProjects toLowerCase filter pg)
  = set_currentFilter filter (state pg).
Proof.
  unfold filterProjects.
  match goal with
  | |- state (displayProjects ?l ?ps ?p) = _ =>
      destruct (displayProjects_frame l ps p) as (-> & _)
  end.
  reflexivity.
Qed.

Lemma filterProjects_buttons (filter : string) (pg : Page) :
  filterButtons (filterProjects toLowerCase filter pg)
  = map (toggleButton filter) (filterButtons pg).
Proof.
  unfold filterProjects.
  match goal with
  | |- filterButtons (displayProjects ?l ?ps ?p) = _ =>
      destruct (displayProjects_frame l ps p) as (_ & _ & ->)
  end.
  reflexivity.
Qed.

Lemma filterProjects_animations (filter : string) (pg : Page) :
  animations (filterProjects toLowerCase filter pg) = animations pg.
Proof.
  unfold filterProjects.
  match goal with
  | |- animations (displayProjects ?l ?ps ?p) = _ =>
      destruct (displayProjects_frame l ps p) as (_ & -> & _)
  end.
  reflexivity.
Qed.

Lemma filterProjects_container (filter : string) (pg : Page) :
  projectsContainer (filterProjects toLowerCase filter pg) =
  match projectsContainer pg with
  | None => None
  | Some _ =>
      Some (viewOf toLowerCase (set_currentFilter filter (state pg)))
  end.
Proof.
  unfold filterProjects. rewrite displayProjects_container.
  cbn [set_filterButtons with_state projectsContainer state].
  destruct (projectsContainer pg); [|reflexivity].
  unfold viewOf. cbn [set_currentFilter allProjects currentFilter].
  destruct (filteredProjects toLowerCase (allProjects (state pg)) filter);
    reflexivity.
Qed.

Lemma page_eq (a b : Page) :
  state a = state b -> projectsContainer a = projectsContainer b ->
  filterButtons a = filterButtons b -> animations a = animations b ->
  a = b.
Proof.
  destruct a, b; simpl; intros -> -> -> ->; reflexivity.
Qed.

(** X7: After a filter is selected the container shows the stored list under the
    filter that is now active: the cards of the first twelve matching
    repositories, or the note that there are none. *)
Theorem filter_click_shows_view (filter : string) (pg : Page) :
  showsView toLowerCase (filterProjects toLowerCase filter pg) /\
  currentFilter (state (filterProjects toLowerCase filter pg)) = filter.
Proof.
  split; [|now rewrite filterProjects_state].
  unfold showsView.
  rewrite filterProjects_state, filterProjects_container.
  destruct (projectsContainer pg); reflexivity.
Qed.

(** X8: A fetch that succeeds while the active filter is "all" leaves the
    container showing the stored list under the active filter. *)
Theorem fetch_success_shows_view (userData : UserData)
  (reposData : list Project) (pg : Page) :
  currentFilter (state pg) = "all" ->
  showsView toLowerCase
    (fetchGitHubData_resume toLowerCase (Response true (inr userData))
       (Response true (inr reposData)) pg).
Proof.
  intros Hall. unfold showsView, fetchGitHubData_resume.
  cbn [fetchGitHubUser fetchGitHubRepos negb Promise_all with_state
       projectsContainer state].
  rewrite displayProjects_container.
  destruct (displayProjects_frame toLowerCase reposData
              (with_state (set_allProjects reposData)
                 (updateStats userData reposData pg))) as (-> & _).
  cbn [with_state projectsContainer state updateStats animateNumber].
  destruct (projectsContainer pg); [|reflexivity].
  unfold viewOf.
  cbn [set_isLoading set_allProjects allProjects currentFilter].
  rewrite Hall. cbn. destruct reposData; reflexivity.
Qed.

(** X9: Selecting the same filter twice in a row leaves the page as the first
    selection left it. *)
Theorem filterProjects_idempotent (filter : string) (pg : Page) :
  filterProjects toLowerCase filter (filterProjects toLowerCase filter pg)
  = filterProjects toLowerCase filter pg.
Proof.
  apply page_eq.
  - rewrite !filterProjects_state. reflexivity.
  - rewrite !filterProjects_container, filterProjects_state.
    destruct (projectsContainer pg); reflexivity.
  - rewrite !filterProjects_buttons, map_map. apply map_ext.
    intros btn. reflexivity.
  - rewrite !filterProjects_animations. reflexivity.
Qed.

(** X10: Filtering by a tag and then by a tag that contains it (after case
    mapping) gives what filtering by the longer tag gives at once. *)
Theorem filter_narrowing (L : list Project) (tag longer : string) :
  tag <> "all" -> longer <> "all" ->
  Contains (toLowerCase longer) (toLowerCase tag) ->
  filteredProjects toLowerCase (filteredProjects toLowerCase L tag) longer
  = filteredProjects toLowerCase L longer.
Proof.
  intros Ht Hl Hsub. unfold filteredProjects.
  apply String.eqb_neq in Ht, Hl. rewrite Ht, Hl. cbn [negb].
  apply filter_filter_implied.
  intros project Hm.
  apply matchesFilter_iff in Hm as (l & El & Hne & Hc).
  apply matchesFilter_iff. exists l. repeat split; try assumption.
  now apply Contains_trans with (b := toLowerCase longer).
Qed.

Lemma toggled_buttons_match (filter : string) (buttons : list FilterBtn) :
  forallb (fun btn => Bool.eqb (active btn) (dataset_filter btn =? filter))
          (map (toggleButton filter) buttons) = true.
Proof.
  induction buttons as [|btn buttons IH]; [reflexivity|].
  simpl. rewrite IH. now rewrite Bool.eqb_reflx.
Qed.

Lemma fetchGitHubData_resume_frame (user : Fetched UserData)
  (repos : Fetched (list Project)) (pg : Page) :
  currentFilter (state (fetchGitHubData_resume toLowerCase user repos pg))
    = currentFilter (state pg) /\
  filterButtons (fetchGitHubData_resume toLowerCase user repos pg)
    = filterButtons pg /\
  (projectsContainer (fetchGitHubData_resume toLowerCase user repos pg) = None
   <-> projectsContainer pg = None).
Proof.
  unfold fetchGitHubData_resume.
  destruct (Promise_all (fetchGitHubUser user) (fetchGitHubRepos repos))
    as [[userData reposData]|e].
  - cbn [with_state state filterButtons projectsContainer set_isLoading
         currentFilter].
    rewrite displayProjects_container.
    destruct (displayProjects_frame toLowerCase reposData
                (with_state (set_allProjects reposData)
                   (updateStats userData reposData pg))) as (-> & _ & ->).
    cbn. repeat split; destruct (projectsContainer pg); congruence.
  - cbn. repeat split; destruct (projectsContainer pg); congruence.
Qed.

Lemma step_highlight (pg : Page) (ev : Event) :
  highlightMatches pg = true ->
  highlightMatches (step toLowerCase pg ev) = true.
Proof.
  intros H. destruct ev as [|user repos|filter]; cbn [step].
  - unfold fetchGitHubData_start.
    destruct (isLoading (state pg)); exact H.
  - unfold highlightMatches.
    destruct (fetchGitHubData_resume_frame user repos pg) as (-> & -> & _).
    exact H.
  - unfold highlightMatches.
    rewrite filterProjects_state, filterProjects_buttons.
    apply toggled_buttons_match.
Qed.

Lemma run_highlight (events : list Event) (pg : Page) :
  highlightMatches pg = true ->
  highlightMatches (run toLowerCase events pg) = true.
Proof.
  unfold run. revert pg.
  induction events as [|ev events IH]; intros pg H; [exact H|].
  simpl. apply IH. now apply step_highlight.
Qed.

(** X12: The highlight of the filter buttons follows the active filter: once
    exactly the buttons of the active filter are highlighted, this stays so
    through every series of fetches and filter selections; and whatever the
    page was, it is so after any series of events in which a filter was
    selected. *)
Theorem highlight_follows_filter (events later : list Event) (pg : Page)
  (filter : string) :
  (highlightMatches pg = true ->
   highlightMatches (run toLowerCase events pg) = true) /\
  highlightMatches
    (run toLowerCase (events ++ FilterClicked filter :: later) pg) = true.
Proof.
  split; [apply run_highlight|].
  unfold run. rewrite fold_left_app. cbn [fold_left step].
  apply run_highlight. unfold highlightMatches.
  rewrite filterProjects_state, filterProjects_buttons.
  apply toggled_buttons_match.
Qed.

Lemma step_container (pg : Page) (ev : Event) :
  projectsContainer (step toLowerCase pg ev) = None
  <-> projectsContainer pg = None.
Proof.
  destruct ev as [|user repos|filter]; cbn [step].
  - unfold fetchGitHubData_start.
    destruct (isLoading (state pg)); [reflexivity|].
    cbn. destruct (projectsContainer pg); split; congruence.
  - apply fetchGitHubData_resume_frame.
  - rewrite filterProjects_container.
    destruct (projectsContainer pg); split; congruence.
Qed.

(** X13: The script writes into the container only where there is one: through
    every series of events a page without the container stays without it
    and a page with the container keeps it; without the container a
    successful fetch still stores the list it fetched. *)
Theorem container_presence_kept (events : list Event) (pg : Page)
  (userData : UserData) (reposData : list Project) :
  (projectsContainer (run toLowerCase events pg) = None
   <-> projectsContainer pg = None) /\
  allProjects
    (state (fetchGitHubData_resume toLowerCase (Response true (inr userData))
              (Response true (inr reposData)) pg)) = reposData.
Proof.
  split.
  - unfold run. revert pg.
    induction events as [|ev events IH]; intros pg; [reflexivity|].
    simpl. rewrite IH. apply step_container.
  - unfold fetchGitHubData_resume.
    cbn [fetchGitHubUser fetchGitHubRepos negb Promise_all with_state state
         set_isLoading allProjects].
    destruct (displayProjects_frame toLowerCase reposData
                (with_state (set_allProjects reposData)
                   (updateStats userData reposData pg))) as (-> & _).
    reflexivity.
Qed.

End ViewProperties.

Lemma fetch_success_shows_view_witness :
  currentFilter (state page0) = "all" /\
  showsView asciiLower
    (fetchGitHubData_resume asciiLower (Response true (inr someUser))
       (Response true (inr [tsRepo; pyRepo])) page0).
Proof.
  split; [reflexivity|].
  apply (fetch_success_shows_view asciiLower). reflexivity.
Defined.

Lemma filter_narrowing_witness :
  "script" <> "all" /\ "typescript" <> "all" /\
  Contains (asciiLower "typescript") (asciiLower "script") /\
  filteredProjects asciiLower
    (filteredProjects asciiLower [tsRepo; pyRepo; noLangRepo] "script")
    "typescript"
  = filteredProjects asciiLower [tsRepo; pyRepo; noLangRepo] "typescript".
Proof.
  assert (Hsub : Contains (asciiLower "typescript") (asciiLower "script")).
  { exists "type", EmptyString. reflexivity. }
  split; [discriminate|]. split; [discriminate|]. split; [exact Hsub|].
  apply (filter_narrowing asciiLower); [discriminate | discriminate |].
  exact Hsub.
Defined.

Lemma highlight_follows_filter_witness :
  highlightMatches page0 = true /\
  highlightMatches
    (run asciiLower
       [FetchStarts; FilterClicked "python";
        FetchSettles (Response true (inr someUser)) (Rejected "offline")]
       page0) = true.
Proof.
  split; [reflexivity|].
  exact (proj1 (highlight_follows_filter asciiLower
                  [FetchStarts; FilterClicked "python";
                   FetchSettles (Response true (inr someUser))
                                (Rejected "offline")]
                  [] page0 "all") eq_refl).
Defined.

(** ** Further properties: statistics *)

Lemma total_nonneg (count : Project -> Z) (L : list Project) :
  Forall (fun project => (0 <= count project)%Z) L ->
  (0 <= total count L)%Z.
Proof.
  unfold total. induction 1 as [|project L Hp HL IH]; simpl; lia.
Qed.

Lemma total_filter_le (count : Project -> Z) (keep : Project -> bool)
  (L : list Project) :
  Forall (fun project => (0 <= count project)%Z) L ->
  (0 <= total count (List.filter keep L) <= total count L)%Z.
Proof.
  unfold total. induction 1 as [|project L Hp HL IH]; simpl; [lia|].
  destruct (keep project); simpl; lia.
Qed.

Lemma total_slice0_le (count : Project -> Z) (L : list Project) :
  Forall (fun project => (0 <= count project)%Z) L ->
  forall n, (0 <= total count (slice0 n L) <= total count L)%Z.
Proof.
  unfold total, slice0.
  induction 1 as [|project L Hp HL IH]; intros n.
  - rewrite firstn_nil. simpl. lia.
  - destruct n as [|n]; simpl.
    + pose proof (total_nonneg count L HL) as Hn. unfold total in Hn. lia.
    + specialize (IH n). lia.
Qed.

(** X15: With counts that are not negative, the totals of what a filter keeps and
    of the first entries that the display cap keeps lie between zero and the
    totals over the whole list. *)
Theorem stats_bound_parts (toLowerCase : string -> string)
  (userData : UserData) (L : list Project) (tag : string) (n : nat) :
  countsNonNegative L ->
  (0 <= stars (computeStats userData (filteredProjects toLowerCase L tag))
     <= stars (computeStats userData L))%Z /\
  (0 <= forks (computeStats userData (filteredProjects toLowerCase L tag))
     <= forks (computeStats userData L))%Z /\
  (0 <= stars (computeStats userData (slice0 n L))
     <= stars (computeStats userData L))%Z /\
  (0 <= forks (computeStats userData (slice0 n L))
     <= forks (computeStats userData L))%Z.
Proof.
  intros Hnn.
  assert (Hs : Forall (fun p => (0 <= stargazers_count p)%Z) L).
  { eapply Forall_impl; [|exact Hnn]. now intros p [H _]. }
  assert (Hf : Forall (fun p => (0 <= forks_count p)%Z) L).
  { eapply Forall_impl; [|exact Hnn]. now intros p [_ H]. }
  cbn [computeStats stars forks]. rewrite !reduce_total, !Z.add_0_l.
  assert (Hfilt : forall count,
             Forall (fun p => (0 <= count p)%Z) L ->
             (0 <= total count (filteredProjects toLowerCase L tag)
                <= total count L)%Z).
  { intros count Hc. unfold filteredProjects.
    destruct (negb (tag =? "all")).
    - now apply total_filter_le.
    - pose proof (total_nonneg count L Hc). lia. }
  repeat split;
    try (apply Hfilt; assumption);
    try (apply total_slice0_le; assumption).
Qed.

Lemma stats_bound_parts_witness :
  countsNonNegative [counted 3 1; counted 0 2; counted 5 0] /\
  (0 <= stars (computeStats someUser
                 (slice0 2 [counted 3 1; counted 0 2; counted 5 0]))
     <= stars (computeStats someUser
                 [counted 3 1; counted 0 2; counted 5 0]))%Z.
Proof.
  assert (H : countsNonNegative [counted 3 1; counted 0 2; counted 5 0]).
  { repeat constructor; simpl; discriminate. }
  split; [exact H|].
  exact (proj1 (proj2 (proj2
           (stats_bound_parts asciiLower someUser
              [counted 3 1; counted 0 2; counted 5 0] "all" 2 H)))).
Defined.

(** ** Further properties: the upload helper over time *)

Lemma handleResumeUpload_cases (createObjectURL : File -> string)
  (file : File) (ui : UploadUI) :
  downloadBtn_href (handleResumeUpload createObjectURL (Some file) ui)
    = (if acceptable file then createObjectURL file else downloadBtn_href ui)
  /\
  downloadBtn_download (handleResumeUpload createObjectURL (Some file) ui)
    = (if acceptable file then file_name file else downloadBtn_download ui).
Proof.
  unfold acceptable, handleResumeUpload, maxResumeSize.
  destruct (file_type file =? "application/pdf"); cbn [negb andb].
  - rewrite Z.leb_antisym.
    destruct (5 * 1024 * 1024 <? file_size file)%Z; split; reflexivity.
  - split; reflexivity.
Qed.

(** X16: After any series of selections the download link carries the address
    and the name of the last file that passed the validation, and what it
    carried before the series when no file passed. *)
Theorem upload_keeps_last_accepted (createObjectURL : File -> string)
  (selections : list (option File)) (ui : UploadUI) :
  downloadBtn_href
    (fold_left (fun u selected => handleResumeUpload createObjectURL selected u)
               selections ui)
  = match rev (acceptedFiles selections) with
    | file :: _ => createObjectURL file
    | [] => downloadBtn_href ui
    end /\
  downloadBtn_download
    (fold_left (fun u selected => handleResumeUpload createObjectURL selected u)
               selections ui)
  = match rev (acceptedFiles selections) with
    | file :: _ => file_name file
    | [] => downloadBtn_download ui
    end.
Proof.
  induction selections as [|selected selections IH] using rev_ind;
    [split; reflexivity|].
  rewrite fold_left_app. cbn [fold_left].
  unfold acceptedFiles in *. rewrite flat_map_app, filter_app, rev_app_distr.
  destruct selected as [file|]; cbn [flat_map app List.filter].
  - destruct (handleResumeUpload_cases createObjectURL file
                (fold_left
                   (fun u selected =>
                      handleResumeUpload createObjectURL selected u)
                   selections ui)) as [-> ->].
    destruct (acceptable file); cbn [rev app]; [split; reflexivity|].
    exact IH.
  - cbn [rev app handleResumeUpload]. exact IH.
Qed.

Section CleanupProperties.

Variable objectURL : nat -> string.
Variable hrefOf : string -> string.
Hypothesis objectURL_fresh : forall a b, objectURL a = objectURL b -> a = b.
Hypothesis objectURL_read_back : forall n, hrefOf (objectURL n) = objectURL n.

Lemma resumeSelected_sound (selected : option File) (s : UploadSession) :
  sessionSound objectURL hrefOf s ->
  sessionSound objectURL hrefOf (resumeSelected objectURL selected s).
Proof.
  intros [Hold Hlive]. unfold resumeSelected.
  destruct selected as [file|]; [|split; assumption].
  cbv zeta. unfold handleResumeUpload.
  destruct (negb (file_type file =? "application/pdf"));
    [split; [exact Hold | exact Hlive]|].
  destruct (maxResumeSize <? file_size file)%Z;
    [split; [exact Hold | exact Hlive]|].
  split; cbn [pendingCleanups revokedURLs objectURLs session_ui
              downloadBtn_href].
  - intros url [Hin|Hin].
    + apply in_app_or in Hin as [Hin|[<-|[]]].
      * destruct (Hold url (or_introl Hin)) as (k & Hk & ->).
        exists k. split; [lia | reflexivity].
      * exists (objectURLs s). split; [lia | reflexivity].
    + destruct (Hold url (or_intror Hin)) as (k & Hk & ->).
      exists k. split; [lia | reflexivity].
  - rewrite objectURL_read_back.
    intros Hin. destruct (Hold _ (or_intror Hin)) as (k & Hk & E).
    apply objectURL_fresh in E. lia.
Qed.

Lemma In_without (i : nat) (l : list string) (x : string) :
  In x (firstn i l ++ skipn (S i) l)%list -> In x l.
Proof.
  intros H. apply in_app_or in H as [H|H].
  - rewrite <- (firstn_skipn i l). apply in_or_app. now left.
  - rewrite <- (firstn_skipn (S i) l). apply in_or_app. now right.
Qed.

Lemma cleanupFires_sound (i : nat) (s : UploadSession) :
  sessionSound objectURL hrefOf s ->
  sessionSound objectURL hrefOf (cleanupFires hrefOf i s).
Proof.
  intros [Hold Hlive]. unfold cleanupFires.
  destruct (nth_error (pendingCleanups s) i) as [url|] eqn:E;
    [|split; assumption].
  apply nth_error_In in E.
  split; cbn [pendingCleanups revokedURLs objectURLs session_ui].
  - intros u [Hin|Hin].
    + apply Hold. left. now apply In_without in Hin.
    + destruct (negb (hrefOf (downloadBtn_href (session_ui s)) =? url));
        [destruct Hin as [<-|Hin]|]; apply Hold; auto.
  - destruct (hrefOf (downloadBtn_href (session_ui s)) =? url) eqn:Eq;
      cbn [negb]; [exact Hlive|].
    apply String.eqb_neq in Eq.
    intros [Hin|Hin]; [now apply Eq | now apply Hlive].
Qed.

(** X17: With object URLs that are never handed out twice and that the link
    reads back as they were stored, whatever files are chosen and whenever
    the clean-up timers fire, the address that the download link reads back
    is never a revoked URL, and only URLs that were handed out are ever
    revoked. *)
Theorem download_link_never_revoked (events : list UploadEvent)
  (s : UploadSession) :
  sessionSound objectURL hrefOf s ->
  sessionSound objectURL hrefOf (uploadRun objectURL hrefOf events s) /\
  ~ In (hrefOf
          (downloadBtn_href
             (session_ui (uploadRun objectURL hrefOf events s))))
       (revokedURLs (uploadRun objectURL hrefOf events s)).
Proof.
  intros H.
  assert (G : sessionSound objectURL hrefOf
                (uploadRun objectURL hrefOf events s)).
  { unfold uploadRun. revert s H.
    induction events as [|ev events IH]; intros s H; [exact H|].
    simpl. apply IH. destruct ev as [selected|i]; cbn [uploadStep].
    - now apply resumeSelected_sound.
    - now apply cleanupFires_sound. }
  split; [exact G | exact (proj2 G)].
Qed.

End CleanupProperties.

Lemma letters_length (n : nat) : String.length (letters n) = n.
Proof. induction n as [|n IH]; simpl; [reflexivity | now rewrite IH]. Qed.

Lemma sampleObjectURL_fresh (a b : nat) :
  sampleObjectURL a = sampleObjectURL b -> a = b.
Proof.
  unfold sampleObjectURL. intros E.
  apply (f_equal String.length) in E. cbn in E.
  rewrite !letters_length in E. lia.
Qed.

Lemma sampleObjectURL_read_back (n : nat) :
  sampleHrefOf (sampleObjectURL n) = sampleObjectURL n.
Proof. reflexivity. Qed.

Lemma session0_sound : sessionSound sampleObjectURL sampleHrefOf session0.
Proof.
  split.
  - intros url [[]|[]].
  - intros [].
Qed.

Lemma download_link_never_revoked_witness :
  (forall a b, sampleObjectURL a = sampleObjectURL b -> a = b) /\
  (forall n, sampleHrefOf (sampleObjectURL n) = sampleObjectURL n) /\
  sessionSound sampleObjectURL sampleHrefOf session0 /\
  ~ In (sampleHrefOf
          (downloadBtn_href
             (session_ui
                (uploadRun sampleObjectURL sampleHrefOf
                   [FileChosen (Some (pdfOfSize 100));
                    FileChosen (Some (pdfOfSize 200));
                    CleanupTimer 0; CleanupTimer 0]
                   session0))))
       (revokedURLs
          (uploadRun sampleObjectURL sampleHrefOf
             [FileChosen (Some (pdfOfSize 100));
              FileChosen (Some (pdfOfSize 200));
              CleanupTimer 0; CleanupTimer 0]
             session0)).
Proof.
  split; [exact sampleObjectURL_fresh|].
  split; [exact sampleObjectURL_read_back|].
  split; [exact session0_sound|].
  exact (proj2 (download_link_never_revoked sampleObjectURL sampleHrefOf
                  sampleObjectURL_fresh sampleObjectURL_read_back
                  [FileChosen (Some (pdfOfSize 100));
                   FileChosen (Some (pdfOfSize 200));
                   CleanupTimer 0; CleanupTimer 0]
                  session0 session0_sound)).
Defined.

(** ** Further properties: the mobile menu *)




(** ** Further properties: text of the card, empty list, case of the tag *)

Section MoreCardAndFilter.

Variable toLowerCase : string -> string.

(** X3: In every card the title holds the escaped name and the description
    paragraph holds the escaped description (or placeholder), and neither
    of these escaped texts has a [<] or a [>] in it. *)
Theorem card_text_is_escaped (project : Project) (index : nat) :
  Contains (createProjectCard toLowerCase project index)
    ("<span>" ++ escapeHtml (name project) ++ "</span>") /\
  Contains (createProjectCard toLowerCase project index)
    (">" ++ escapeHtml (or_else (description project) noDescription)
     ++ "</p>") /\
  includes (escapeHtml (name project)) "<" = false /\
  includes (escapeHtml (name project)) ">" = false /\
  includes (escapeHtml (or_else (description project) noDescription)) "<"
    = false /\
  includes (escapeHtml (or_else (description project) noDescription)) ">"
    = false.
Proof.
  split; [apply createProjectCard_name_places|].
  split; [apply createProjectCard_slots|].
  destruct (escapeHtml_no_markup (name project)) as [-> ->].
  destruct (escapeHtml_no_markup
              (or_else (description project) noDescription)) as [-> ->].
  repeat split.
Qed.

(** X14: On a page whose stored list is empty, as it is when the first fetch has
    failed, selecting any filter puts the note that there are no projects
    into the container, in place of the error message. *)
Theorem failed_fetch_then_filter (user : Fetched UserData)
  (repos : Fetched (list Project)) (filter : string) (pg : Page) :
  failed user = true \/ failed repos = true ->
  allProjects (state pg) = [] ->
  projectsContainer
    (filterProjects toLowerCase filter
       (fetchGitHubData_resume toLowerCase user repos pg))
  = match projectsContainer pg with
    | Some _ => Some noProjectsHtml
    | None => None
    end.
Proof.
  intros Hfail Hempty.
  rewrite fetchGitHubData_resume_failed by exact Hfail.
  rewrite filterProjects_container.
  cbn [with_state showError set_innerHTML projectsContainer state].
  destruct (projectsContainer pg); [|reflexivity].
  unfold viewOf, filteredProjects.
  cbn [set_currentFilter set_isLoading allProjects currentFilter].
  rewrite Hempty. destruct (negb (filter =? "all")); reflexivity.
Qed.

(** X11: A tag and its case-mapped form select the same repositories, as long as
    neither of the two is the word "all" and case mapping a second time
    changes nothing. *)
Theorem filter_tag_case (L : list Project) (tag : string) :
  tag <> "all" -> toLowerCase tag <> "all" ->
  toLowerCase (toLowerCase tag) = toLowerCase tag ->
  filteredProjects toLowerCase L (toLowerCase tag)
  = filteredProjects toLowerCase L tag.
Proof.
  intros Ht Hl Hidem. unfold filteredProjects.
  apply String.eqb_neq in Ht, Hl. rewrite Ht, Hl. cbn [negb].
  apply filter_ext. intros project. unfold matchesFilter.
  now rewrite Hidem.
Qed.

End MoreCardAndFilter.

Lemma failed_fetch_then_filter_witness :
  (failed (Rejected "offline" : Fetched UserData) = true \/
   failed (Response true (inr [tsRepo]) : Fetched (list Project)) = true) /\
  allProjects (state page0) = [] /\
  projectsContainer
    (filterProjects asciiLower "python"
       (fetchGitHubData_resume asciiLower (Rejected "offline")
          (Response true (inr [tsRepo])) page0))
  = Some noProjectsHtml.
Proof.
  split; [left; reflexivity|]. split; [reflexivity|].
  exact (failed_fetch_then_filter asciiLower (Rejected "offline")
           (Response true (inr [tsRepo])) "python" page0
           (or_introl eq_refl) eq_refl).
Defined.

Lemma filter_tag_case_witness :
  "TypeScript" <> "all" /\ asciiLower "TypeScript" <> "all" /\
  asciiLower (asciiLower "TypeScript") = asciiLower "TypeScript" /\
  filteredProjects asciiLower [tsRepo; pyRepo] (asciiLower "TypeScript")
  = filteredProjects asciiLower [tsRepo; pyRepo] "TypeScript".
Proof.
  split; [discriminate|]. split; [discriminate|]. split; [reflexivity|].
  apply (filter_tag_case asciiLower); [discriminate | discriminate |].
  reflexivity.
Defined.
